(** * Tuya EV charger to MQTT bridge: the status pipeline of [main.py]

    A shallow embedding of the scaling table, the unit/class inference, the
    two status normalizers, the discovery publisher and the two poll loops,
    followed by the properties established about them.

    Conventions of the embedding.
    - Python values are the terms of [pyval]; [int] is unbounded ([Z]),
      [float] is IEEE binary64 (the primitive floats), [dict] is an
      insertion-ordered association list with string keys (the statuses are
      decoded JSON).
    - Python strings are byte strings here, the UTF-8 encoding of the text;
      [lower] lowers every character whose lower case holds an ASCII
      character, which is all that tests for ASCII patterns can see.
    - A Python call that may raise returns a [result].
    - The MQTT client is the log of its [publish] calls, which return
      normally; [base] and [device_id] are the strings that [mqtt_connect]
      and the options hand to the loops.
    - [str] of a float or of a container and [json.dumps] are library
      functions whose output no property below depends on: they are the
      parameters [py_repr] and [json_dumps] of the section [Pipeline]. *)

From Stdlib Require Import ZArith List Bool Ascii String Lia.
From Stdlib Require Import PrimFloat SpecFloat FloatOps.
From Stdlib Require DecimalString.
Import ListNotations.

#[local] Set Warnings "-inexact-float,-register-all".
#[local] Open Scope list_scope.
#[local] Open Scope string_scope.

(** ** Python values and exceptions *)

Inductive pyval : Type :=
| PNone
| PBool (b : bool)
| PInt (z : Z)
| PFloat (f : float)
| PStr (s : string)
| PList (l : list pyval)
| PDict (d : list (string * pyval)).

Definition dict : Type := list (string * pyval).

Inductive exn : Type :=
| AttributeError
| OverflowError
| KeyError
| TypeError
| RuntimeError (msg : string)
| DeviceError (msg : string).

Inductive result (A : Type) : Type :=
| Ok (a : A)
| Raise (e : exn).
Arguments Ok {A} a.
Arguments Raise {A} e.

Definition bind {A B : Type} (r : result A) (k : A -> result B) : result B :=
  match r with
  | Ok a => k a
  | Raise e => Raise e
  end.

Notation "x <- r ;; k" := (bind r (fun x => k))
  (at level 61, r at next level, right associativity).

(** [isinstance] tests used by the source. *)

Definition is_dict (v : pyval) : bool :=
  match v with PDict _ => true | _ => false end.

Definition is_list (v : pyval) : bool :=
  match v with PList _ => true | _ => false end.

(** [isinstance(v, (int, float))]: [bool] is a subclass of [int]. *)
Definition is_number (v : pyval) : bool :=
  match v with PBool _ | PInt _ | PFloat _ => true | _ => false end.

(** [isinstance(v, (int, float, str, bool))]. *)
Definition is_scalar (v : pyval) : bool :=
  match v with PBool _ | PInt _ | PFloat _ | PStr _ => true | _ => false end.

(** [isinstance(v, (dict, list))]. *)
Definition is_container (v : pyval) : bool :=
  match v with PDict _ | PList _ => true | _ => false end.

(** Truth value of an object, as [if], [and] and [or] test it. *)
Definition truthy (v : pyval) : bool :=
  match v with
  | PNone => false
  | PBool b => b
  | PInt z => negb (Z.eqb z 0)
  | PFloat f => negb (PrimFloat.eqb f 0%float)
  | PStr s => negb (String.eqb s "")
  | PList l => match l with [] => false | _ => true end
  | PDict d => match d with [] => false | _ => true end
  end.

(** ** Dictionaries: insertion-ordered, first binding of a key is the binding *)

Fixpoint dict_get (d : dict) (k : string) : option pyval :=
  match d with
  | [] => None
  | (k', v) :: d' => if String.eqb k' k then Some v else dict_get d' k
  end.

(** [d[k] = v]: an existing key keeps its position, a new key goes last. *)
Fixpoint dict_set (d : dict) (k : string) (v : pyval) : dict :=
  match d with
  | [] => [(k, v)]
  | (k', v') :: d' =>
      if String.eqb k' k then (k', v) :: d' else (k', v') :: dict_set d' k v
  end.

Definition dict_mem (d : dict) (k : string) : bool :=
  match dict_get d k with Some _ => true | None => false end.

Definition keys (d : dict) : list string := map fst d.

(** [d.get(k)] is [None] for a missing key; [d.get(k, dflt)] is [dflt]. *)
Definition dict_get_default (d : dict) (k : string) (dflt : pyval) : pyval :=
  match dict_get d k with Some v => v | None => dflt end.

(** ** Floating point: [int * float], [float * float], [round(x, ndigits)] *)

(** Conversion of an [int] to the nearest float, ties to even; a magnitude
    that rounds past the largest float raises [OverflowError]. *)
Definition float_of_int (z : Z) : result float :=
  match binary_normalize prec emax z 0 false with
  | S754_infinity _ => Raise OverflowError
  | sf => Ok (SF2Prim sf)
  end.

(** The left operand of [value * factor] as a float. *)
Definition to_float (v : pyval) : result float :=
  match v with
  | PBool b => float_of_int (if b then 1 else 0)
  | PInt z => float_of_int z
  | PFloat f => Ok f
  | _ => Raise TypeError
  end.

Definition py_mul (v : pyval) (factor : float) : result float :=
  x <- to_float v ;; Ok (PrimFloat.mul x factor).

(** The integer nearest to [m * 10^ndigits * 2^e], ties to even. *)
Definition round_half_even_scaled (m : positive) (e : Z) (ndigits : Z) : Z :=
  let num := (Z.pos m * 10 ^ ndigits)%Z in
  if (0 <=? e)%Z then (num * 2 ^ e)%Z
  else
    let den := (2 ^ (- e))%Z in
    let q := (num / den)%Z in
    let r := (num mod den)%Z in
    match (2 * r ?= den)%Z with
    | Lt => q
    | Gt => (q + 1)%Z
    | Eq => if Z.even q then q else (q + 1)%Z
    end.

(** [round(x, ndigits)] on a float, [0 <= ndigits]: the exact value of [x] is
    rounded to [ndigits] decimals (ties to even) and the decimal obtained is
    converted back to the nearest float; zeros, infinities and NaN are
    returned as they are and the sign of a result that rounds to zero is
    kept. *)
Definition py_round (x : float) (ndigits : Z) : float :=
  match Prim2SF x with
  | S754_finite s m e =>
      match round_half_even_scaled m e ndigits with
      | Zpos n =>
          SF2Prim (SFdiv prec emax (S754_finite s n 0)
                     (S754_finite false (Z.to_pos (10 ^ ndigits)) 0))
      | _ => SF2Prim (S754_zero s)
      end
  | _ => x
  end.

(** ** Scaling table *)

Definition SCALE_MAP : list (string * float) :=
  [ ("energy_charge", 0.01%float);
    ("forward_energy_total", 0.01%float);
    ("a_current", 0.1%float) ].

Fixpoint scale_lookup (m : list (string * float)) (code : string) : option float :=
  match m with
  | [] => None
  | (c, f) :: m' => if String.eqb c code then Some f else scale_lookup m' code
  end.

Definition apply_scaling (code : string) (value : pyval) : result pyval :=
  match scale_lookup SCALE_MAP code with
  | Some factor =>
      if is_number value
      then x <- py_mul value factor ;; Ok (PFloat (py_round x 3))
      else Ok value
  | None => Ok value
  end.

(** ** Strings: [lower], [in], [startswith], [endswith], [replace] *)

Definition lower_ascii (c : ascii) : ascii :=
  let n := nat_of_ascii c in
  if (65 <=? n)%nat && (n <=? 90)%nat then ascii_of_nat (n + 32) else c.

(** [s.lower()], as far as ASCII characters go. The letters A to Z are
    lowered; so are the two characters outside ASCII whose lower case holds an
    ASCII character: U+212A KELVIN SIGN (bytes 226 132 170) becomes "k" and
    U+0130 (bytes 196 176) becomes "i" followed by U+0307 (bytes 204 135).
    Every other character outside ASCII is left as it is: Python maps it to
    characters outside ASCII again, whose bytes no ASCII pattern matches. *)
Fixpoint lower (s : string) : string :=
  match s with
  | EmptyString => EmptyString
  | String "226" (String "132" (String "170" rest)) =>
      String "k" (lower rest)
  | String "196" (String "176" rest) =>
      String "i" (String "204" (String "135" (lower rest)))
  | String c s' => String (lower_ascii c) (lower s')
  end.

(** [sub in s]. *)
Fixpoint str_in (sub s : string) : bool :=
  match s with
  | EmptyString => String.prefix sub EmptyString
  | String _ s' => String.prefix sub s || str_in sub s'
  end.

Definition startswith (s p : string) : bool := String.prefix p s.

Fixpoint endswith (s p : string) : bool :=
  match s with
  | EmptyString => String.eqb p EmptyString
  | String _ s' => String.eqb s p || endswith s' p
  end.

(** [s.replace(" ", "_")]. *)
Fixpoint replace_spaces (s : string) : string :=
  match s with
  | EmptyString => EmptyString
  | String c s' =>
      String (if Ascii.eqb c " "%char then "_"%char else c) (replace_spaces s')
  end.

(** [any(k in c for k in ks)]. *)
Definition any_in (ks : list string) (c : string) : bool :=
  existsb (fun k => str_in k c) ks.

(** ** Unit and device-class inference *)

(** The seven tests of [guess_unit_and_device_class], on the lowered name. *)

Definition is_temperature (c : string) : bool :=
  str_in "temp_current" c || str_in "temperature" c
  || startswith c "temp" || endswith c "_temp".

Definition is_current (c : string) : bool := any_in ["current"; "amp"; "i_"] c.
Definition is_voltage (c : string) : bool := any_in ["voltage"; "volt"; "u_"] c.
Definition is_power (c : string) : bool := any_in ["power"; "watt"; "p_"] c.
Definition is_energy (c : string) : bool := any_in ["energy"; "kwh"; "consumption"] c.
Definition is_frequency (c : string) : bool := any_in ["frequency"; "hz"] c.
Definition is_percentage (c : string) : bool :=
  str_in "percent" c || endswith c "_pct".

Definition unit_class : Type := option string * option string.

(** The body of [guess_unit_and_device_class] below [c = code.lower()]. *)
Definition guess_lowered (c : string) : unit_class :=
  if is_temperature c then (Some "Â°C", Some "temperature")
  else if is_current c then (Some "A", None)
  else if is_voltage c then (Some "V", Some "voltage")
  else if is_power c then (Some "W", Some "power")
  else if is_energy c then (Some "kWh", Some "energy")
  else if is_frequency c then (Some "Hz", None)
  else if is_percentage c then (Some "%", None)
  else (None, None).

Definition guess_unit_and_device_class (code : string) : unit_class :=
  let c := lower code in
  guess_lowered c.

(** The rules as an ordered table, evaluated top to bottom, first match wins:
    the reading of the inference as a list of (pattern, unit, class). *)
Definition unit_class_rules : list ((string -> bool) * unit_class) :=
  [ (is_temperature, (Some "Â°C", Some "temperature"));
    (is_current, (Some "A", None));
    (is_voltage, (Some "V", Some "voltage"));
    (is_power, (Some "W", Some "power"));
    (is_energy, (Some "kWh", Some "energy"));
    (is_frequency, (Some "Hz", None));
    (is_percentage, (Some "%", None)) ].

Fixpoint first_match (rules : list ((string -> bool) * unit_class)) (c : string)
  : unit_class :=
  match rules with
  | [] => (None, None)
  | (p, uc) :: rules' => if p c then uc else first_match rules' c
  end.

(** ** The pipeline *)

(** One [cli.publish(topic, payload, retain=...)] call. *)
Record Msg : Type := mkMsg { topic : string; payload : string; retain : bool }.

(** What one pass through the body of a poll loop did: the versions tried (local
    loop only), the snapshot when one was produced, the messages published,
    in order, and the exception caught at the cycle boundary, if any. *)
Record Cycle : Type := mkCycle {
  c_attempts : list float;
  c_version : option float;
  c_flat : option dict;
  c_published : list Msg;
  c_error : option exn
}.

(** State of the version loop of [run_local]. *)
Record Probe : Type := mkProbe {
  p_status : pyval;
  p_version : option float;
  p_last_exc : option exn;
  p_attempts : list float
}.

Section Pipeline.

(** [str(x)] for a float, a list or a dict, and [json.dumps]. *)
Variable py_repr : pyval -> string.
Variable json_dumps : pyval -> string.

Definition py_str (v : pyval) : string :=
  match v with
  | PNone => "None"
  | PBool true => "True"
  | PBool false => "False"
  | PInt z => DecimalString.NilZero.string_of_int (Z.to_int z)
  | PStr s => s
  | _ => py_repr v
  end.

(** *** Status normalizers *)

(** [item.get(k)]: only a dict has the method. *)
Definition item_get (item : pyval) (k : string) : result pyval :=
  match item with
  | PDict d => Ok (dict_get_default d k PNone)
  | _ => Raise AttributeError
  end.

(** The loop over [status["result"]]. *)
Fixpoint collect_records (items : list pyval) (out : dict) : result dict :=
  match items with
  | [] => Ok out
  | item :: rest =>
      code <- item_get item "code" ;;
      value <- item_get item "value" ;;
      match code with
      | PNone => collect_records rest out
      | _ => collect_records rest (dict_set out (py_str code) value)
      end
  end.

(** The loop over [status.items()]. *)
Fixpoint collect_toplevel (entries : dict) (out : dict) : dict :=
  match entries with
  | [] => out
  | (k, v) :: rest =>
      if negb (String.eqb k "result") && is_scalar v
      then collect_toplevel rest (dict_set out k v)
      else collect_toplevel rest out
  end.

(** [for k in list(out.keys()): out[k] = apply_scaling(k, out[k])]. *)
Fixpoint scale_keys (ks : list string) (out : dict) : result dict :=
  match ks with
  | [] => Ok out
  | k :: ks' =>
      match dict_get out k with
      | Some v =>
          v' <- apply_scaling k v ;; scale_keys ks' (dict_set out k v')
      | None => Raise KeyError
      end
  end.

Definition flatten_cloud_status (status : pyval) : result dict :=
  match status with
  | PDict st =>
      out <- match dict_get st "result" with
             | Some (PList items) => collect_records items []
             | _ => Ok []
             end ;;
      let out := collect_toplevel st out in
      scale_keys (keys out) out
  | _ => Ok []
  end.

(** The loop over [data["dps"].items()]. *)
Fixpoint collect_dps (entries : dict) (out : dict) : dict :=
  match entries with
  | [] => out
  | (k, v) :: rest => collect_dps rest (dict_set out ("dps_" ++ k) v)
  end.

(** A data point under its prefixed field code. *)
Definition dps_entry (kv : string * pyval) : string * pyval :=
  ("dps_" ++ fst kv, snd kv).

Definition flatten_local_status (data : pyval) : result dict :=
  let out :=
    match data with
    | PDict d =>
        match dict_get d "dps" with
        | Some (PDict dps) => collect_dps dps []
        | _ => []
        end
    | _ => []
    end in
  scale_keys (keys out) out.

(** *** Discovery publisher *)

Definition dev_block (device_id model manufacturer : string) : pyval :=
  PDict [ ("ids", PList [PStr device_id]);
          ("name", PStr "Gocean EV Charger");
          ("mf", PStr manufacturer);
          ("mdl", PStr model) ].

(** [if unit:] on an optional string. *)
Definition set_if_truthy (p : dict) (k : string) (o : option string) : dict :=
  match o with
  | Some u => if truthy (PStr u) then dict_set p k (PStr u) else p
  | None => p
  end.

(** The payload dict built for the (space-free) [key]. *)
Definition discovery_payload (base device_id : string) (dev : pyval)
    (key : string) : dict :=
  let '(unit, dclass) := guess_unit_and_device_class key in
  let payload :=
    [ ("name", PStr ("Gocean " ++ key));
      ("uniq_id", PStr (device_id ++ "_" ++ key));
      ("stat_t", PStr (base ++ "/" ++ key));
      ("avty_t", PStr (base ++ "/availability"));
      ("dev", dev) ] in
  let payload := set_if_truthy payload "unit_of_meas" unit in
  set_if_truthy payload "dev_cla" dclass.

Definition discovery_topic (device_id key : string) : string :=
  "homeassistant/sensor/" ++ device_id ++ "_" ++ key ++ "/config".

Definition discovery_msg (base device_id : string) (dev : pyval)
    (code : string) : Msg :=
  let key := replace_spaces code in
  mkMsg (discovery_topic device_id key)
        (json_dumps (PDict (discovery_payload base device_id dev key)))
        true.

(** The publish calls of [publish_discovery], in order. *)
Fixpoint discovery_loop (base device_id : string) (dev : pyval)
    (items : dict) : list Msg :=
  match items with
  | [] => []
  | (code, value) :: rest =>
      if is_scalar value
      then discovery_msg base device_id dev code
             :: discovery_loop base device_id dev rest
      else discovery_loop base device_id dev rest
  end.

Definition publish_discovery (base device_id model : string) (items : dict)
  : list Msg :=
  discovery_loop base device_id (dev_block device_id model "Gocean") items.

(** *** Value publication *)

Definition value_topic (base k : string) : string := base ++ "/" ++ k.

Definition value_msg (base : string) (kv : string * pyval) : Msg :=
  let '(k, v) := kv in
  mkMsg (value_topic base k)
        (if is_container v then json_dumps v else py_str v)
        false.

Definition publish_values (base : string) (flat : dict) : list Msg :=
  map (value_msg base) flat.

(** *** Poll loops *)

(** [opt.get("mqtt_discovery", True) and
     opt.get("force_discovery_on_start", True)]. *)
Definition discovery_on (opt : dict) : bool :=
  truthy (dict_get_default opt "mqtt_discovery" (PBool true))
  && truthy (dict_get_default opt "force_discovery_on_start" (PBool true)).

(** What a cycle publishes once it holds the snapshot [flat]. *)
Definition publish_cycle (opt : dict) (base device_id : string) (flat : dict)
  : list Msg :=
  ((if discovery_on opt
    then publish_discovery base device_id "L6 Pro" flat else [])
   ++ publish_values base flat)%list.

(** One pass through the [try] of [run_cloud]; [fetched] is what
    [api.getstatus(device_id)] did. *)
Definition cloud_cycle (opt : dict) (base device_id : string)
    (fetched : result pyval) : Cycle :=
  match status <- fetched ;; flatten_cloud_status status with
  | Ok flat =>
      mkCycle [] None (Some flat) (publish_cycle opt base device_id flat) None
  | Raise e => mkCycle [] None None [] (Some e)
  end.

(** The first [n] cycles of [run_cloud]; [api k] is the outcome of the fetch
    of cycle [k]. *)
Definition run_cloud (opt : dict) (base device_id : string)
    (api : nat -> result pyval) (n : nat) : list Cycle :=
  map (fun k => cloud_cycle opt base device_id (api k)) (seq 0 n).

(** [for v in versions: try: ... break / except: ... continue];
    [dev v] is what [_try_local_status(d, v)] does in this cycle. *)
Fixpoint probe (dev : float -> result pyval) (versions : list float)
    (st : Probe) : Probe :=
  match versions with
  | [] => st
  | v :: rest =>
      match dev v with
      | Ok status =>
          mkProbe status (Some v) (p_last_exc st) (p_attempts st ++ [v])
      | Raise e =>
          probe dev rest
            (mkProbe (p_status st) (p_version st) (Some e)
               (p_attempts st ++ [v]))
      end
  end.

(** The versions one pass of the version loop tries: the candidates in
    order, up to and including the first one on which the device returns. *)
Fixpoint tried (dev : float -> result pyval) (versions : list float)
  : list float :=
  match versions with
  | [] => []
  | v :: rest =>
      match dev v with
      | Ok _ => [v]
      | Raise _ => v :: tried dev rest
      end
  end.

(** One pass through the outer [try] of [run_local], entered with the
    [current_version] left by the previous cycles. *)
Definition local_cycle (opt : dict) (base device_id : string)
    (versions : list float) (dev : float -> result pyval)
    (current_version : option float) : Cycle :=
  let st := probe dev versions (mkProbe PNone current_version None []) in
  match p_status st with
  | PNone =>
      let e := match p_last_exc st with
               | Some e => e
               | None =>
                   RuntimeError "Failed to fetch status with all probed versions"
               end in
      mkCycle (p_attempts st) (p_version st) None [] (Some e)
  | status =>
      match flatten_local_status status with
      | Ok flat =>
          mkCycle (p_attempts st) (p_version st) (Some flat)
            (publish_cycle opt base device_id flat) None
      | Raise e => mkCycle (p_attempts st) (p_version st) None [] (Some e)
      end
  end.

(** [versions = [3.4, 3.3] if probe else [3.3]]. *)
Definition local_versions (opt : dict) : list float :=
  if truthy (dict_get_default opt "probe_versions" (PBool true))
  then [3.4%float; 3.3%float] else [3.3%float].

(** [n] cycles of the loop of [run_local] from cycle number [k];
    [dev k v] is what the device does with version [v] in cycle [k]. *)
Fixpoint local_loop (opt : dict) (base device_id : string)
    (dev : nat -> float -> result pyval) (current_version : option float)
    (k n : nat) : list Cycle :=
  match n with
  | O => []
  | S n' =>
      let c := local_cycle opt base device_id (local_versions opt) (dev k)
                 current_version in
      c :: local_loop opt base device_id dev (c_version c) (S k) n'
  end.

Definition run_local (opt : dict) (base device_id : string)
    (dev : nat -> float -> result pyval) (n : nat) : list Cycle :=
  local_loop opt base device_id dev None 0 n.

(** *** The normalizers read field by field

    What the specification says a snapshot holds, as lookups on the input,
    for comparison with the loops above. *)

(** The input has the shape the local normalizer reads. *)
Definition has_dps (data : pyval) : bool :=
  match data with
  | PDict d =>
      match dict_get d "dps" with Some (PDict _) => true | _ => false end
  | _ => false
  end.

(** The list of records of a remote-API status, if it has one. *)
Definition result_list (st : dict) : option (list pyval) :=
  match dict_get st "result" with
  | Some (PList items) => Some items
  | _ => None
  end.

(** The field [k] contributed by one record. *)
Definition record_entry (item : pyval) (k : string) : option pyval :=
  match item with
  | PDict d =>
      match dict_get_default d "code" PNone with
      | PNone => None
      | code =>
          if String.eqb (py_str code) k
          then Some (dict_get_default d "value" PNone) else None
      end
  | _ => None
  end.

(** The value the records give to field [k]: the last record named [k]. *)
Fixpoint record_field (items : list pyval) (k : string) : option pyval :=
  match items with
  | [] => None
  | item :: rest =>
      match record_field rest k with
      | Some v => Some v
      | None => record_entry item k
      end
  end.

(** The value the top level gives to field [k]: a scalar entry named [k],
    other than the entry "result". *)
Fixpoint toplevel_field (st : dict) (k : string) : option pyval :=
  match st with
  | [] => None
  | (k', v) :: rest =>
      match toplevel_field rest k with
      | Some v' => Some v'
      | None =>
          if String.eqb k' k && negb (String.eqb k' "result") && is_scalar v
          then Some v else None
      end
  end.

(** The raw value of field [k]: top level first, else the records. *)
Definition raw_field (st : dict) (k : string) : option pyval :=
  match toplevel_field st k with
  | Some v => Some v
  | None =>
      match result_list st with
      | Some items => record_field items k
      | None => None
      end
  end.

(** No [int * float] overflows on [v]. *)
Definition scalable (v : pyval) : bool :=
  match v with
  | PInt z => match float_of_int z with Ok _ => true | Raise _ => false end
  | _ => true
  end.

Definition all_scalable (d : dict) : bool :=
  forallb (fun kv => scalable (snd kv)) d.

(** The other top-level entries of a status hold no scalar. *)
Definition no_toplevel_scalar (st : dict) : bool :=
  forallb (fun kv => String.eqb (fst kv) "result" || negb (is_scalar (snd kv))) st.

(** A record that carries no code: [item.get("code")] is [None]. *)
Definition record_without_code (item : pyval) : bool :=
  match item with
  | PDict d =>
      match dict_get_default d "code" PNone with PNone => true | _ => false end
  | _ => false
  end.

(** The "result" entry of a status gives no field: it is absent, or not a
    list, or a list (the empty one too) of records that carry no code. *)
Definition result_gives_no_field (st : dict) : bool :=
  match dict_get st "result" with
  | Some (PList items) => forallb record_without_code items
  | _ => true
  end.

(** Every record is a dict whose value can be scaled. *)
Definition records_ok (items : list pyval) : bool :=
  forallb (fun item =>
             match item with
             | PDict d => scalable (dict_get_default d "value" PNone)
             | _ => false
             end) items.

(** The log of a cycle against its snapshot: discovery messages of the
    snapshot when the two flags let them through, then its value messages;
    nothing without a snapshot. *)
Definition cycle_log_ok (opt : dict) (base device_id : string) (c : Cycle)
  : Prop :=
  match c_flat c with
  | Some flat =>
      c_published c =
      ((if truthy (dict_get_default opt "mqtt_discovery" (PBool true))
           && truthy (dict_get_default opt "force_discovery_on_start" (PBool true))
        then publish_discovery base device_id "L6 Pro" flat else [])
       ++ publish_values base flat)%list
  | None => c_published c = []
  end.

(** The log of a cycle splits into retained discovery messages followed by
    value messages that are not retained. *)
Definition cycle_retain_ok (base device_id : string) (c : Cycle) : Prop :=
  exists disc vals,
    c_published c = (disc ++ vals)%list
    /\ Forall (fun m => retain m = true) disc
    /\ Forall (fun m => retain m = false) vals
    /\ match c_flat c with
       | Some flat =>
           (disc = publish_discovery base device_id "L6 Pro" flat \/ disc = [])
           /\ vals = publish_values base flat
       | None => disc = [] /\ vals = []
       end.

(** A dict status on which the remote-API normalizer runs to its end. *)
Definition cloud_input_ok (st : dict) : bool :=
  match result_list st with
  | Some items => records_ok items
  | None => true
  end && all_scalable st.

End Pipeline.

(** ** Inputs of the examples *)

(** The examples below evaluate the pipeline where neither [str] of a float
    or container nor the text of a JSON payload is looked at. *)
Definition repr_any : pyval -> string := fun _ => "<repr>".
Definition json_any : pyval -> string := fun _ => "<json>".

Definition status_spec_example : pyval :=
  PDict [ ("result", PList [PDict [("code", PStr "a_current"); ("value", PInt 55)]]);
          ("status_extra", PStr "ok") ].

(** A record whose code is the word "result". *)
Definition status_result_code : pyval :=
  PDict [ ("result", PList [PDict [("code", PStr "result"); ("value", PInt 1)]]) ].

(** A "result" list holding something that is not a record. *)
Definition status_bad_record : pyval :=
  PDict [ ("result", PList [PInt 1]) ].

(** A "result" entry that is not a list, next to a scalar field. *)
Definition status_bad_result : pyval :=
  PDict [ ("result", PStr "not-a-list"); ("a", PInt 1) ].

(** A status without numbers. *)
Definition status_work_state : pyval :=
  PDict [ ("result", PList [PDict [("code", PStr "work_state");
                                   ("value", PStr "charging")]]) ].

(** Discovery enabled, not forced. *)
Definition opt_discovery_unforced : dict :=
  [ ("mqtt_discovery", PBool true); ("force_discovery_on_start", PBool false) ].

(** A device that refuses version 3.4 and answers version 3.3, always. *)
Definition dev_only_33 (k : nat) (v : float) : result pyval :=
  if PrimFloat.eqb v 3.3%float
  then Ok (PDict [("dps", PDict [("1", PInt 220)])])
  else Raise (DeviceError "version refused").

(** ** Start-up: [mqtt_connect] and the dispatch of [__main__] *)

(** The MQTT client as [mqtt_connect] leaves it. *)
Record Client : Type := mkClient {
  cl_id : string;
  cl_login : option (pyval * pyval);
  cl_will : Msg;
  cl_host : pyval;
  cl_port : Z;
  cl_log : list Msg
}.

(** What [__main__] does with the options. *)
Inductive Action : Type :=
| RunCloud
| RunLocal
| InvalidConfiguration.

(** [a or b]. *)
Definition py_or (a b : pyval) : pyval := if truthy a then a else b.

(** [x == s] for a string literal [s]. *)
Definition py_eq_str (x : pyval) (s : string) : bool :=
  match x with PStr t => String.eqb t s | _ => false end.

(** [opt[k]]. *)
Definition dict_subscript (d : dict) (k : string) : result pyval :=
  match dict_get d k with Some v => Ok v | None => Raise KeyError end.

(** [options.get(k)] as a condition. *)
Definition opt_set (opt : dict) (k : string) : bool :=
  truthy (dict_get_default opt k PNone).

Definition main (options : dict) : Action :=
  let mode := dict_get_default options "mode" (PStr "cloud") in
  if py_eq_str mode "cloud" && opt_set options "tuya_client_id"
     && opt_set options "tuya_client_secret" && opt_set options "tuya_device_id"
  then RunCloud
  else if py_eq_str mode "local" && opt_set options "tuya_device_id"
          && opt_set options "local_ip" && opt_set options "local_key"
  then RunLocal
  else InvalidConfiguration.

Section Startup.

(** [str(x)] for a float, a list or a dict; [int(x)] for an [x] that is not
    an [int]; and what [cli.connect(host, port, keepalive=60)] followed by
    [cli.loop_start()] does. *)
Variable py_repr : pyval -> string.
Variable py_int_other : pyval -> result Z.
Variable broker : pyval -> Z -> result unit.

Definition py_int (v : pyval) : result Z :=
  match v with
  | PInt z => Ok z
  | PBool b => Ok (if b then 1%Z else 0%Z)
  | _ => py_int_other v
  end.

(** [f"{base}/availability"]. *)
Definition availability_topic (base : pyval) : string :=
  py_str py_repr base ++ "/availability".

Definition mqtt_connect (opt : dict) (device_id : pyval)
  : result (Client * pyval) :=
  let host := dict_get_default opt "mqtt_host" (PStr "core-mosquitto") in
  port <- py_int (dict_get_default opt "mqtt_port" (PInt 1883)) ;;
  let user := py_or (dict_get_default opt "mqtt_username" PNone) PNone in
  let pwd := py_or (dict_get_default opt "mqtt_password" PNone) PNone in
  let base := py_or (dict_get_default opt "mqtt_base_topic" PNone)
                (PStr ("gocean_ev/" ++ py_str py_repr device_id)) in
  let client_id := "gocean_ev_" ++ py_str py_repr device_id in
  let login := if truthy user && truthy pwd then Some (user, pwd) else None in
  let will := mkMsg (availability_topic base) "offline" true in
  _ <- broker host port ;;
  Ok (mkClient client_id login will host port
        [mkMsg (availability_topic base) "online" true],
      base).

End Startup.

(** ** Data-point indices and raw integer readings *)

Definition is_digit (c : ascii) : bool :=
  let n := nat_of_ascii c in (48 <=? n)%nat && (n <=? 57)%nat.

(** A string of decimal digits, as the data-point indices are. *)
Fixpoint all_digits (s : string) : bool :=
  match s with
  | EmptyString => true
  | String c s' => is_digit c && all_digits s'
  end.

(** The scaled value of the raw integer [z] is the float nearest to
    [z / d]. *)
Definition scaled_exactly (code : string) (d : float) (z : Z) : bool :=
  match apply_scaling code (PInt z), float_of_int z with
  | Ok (PFloat r), Ok x => PrimFloat.Leibniz.eqb r (x / d)
  | _, _ => false
  end.

(** [f] holds on the [n] integers from [lo] on. *)
Fixpoint all_from (f : Z -> bool) (lo : Z) (n : nat) : bool :=
  match n with
  | O => true
  | S n' => f lo && all_from f (lo + 1)%Z n'
  end.

(** The version on which the device first returns, if any. *)
Fixpoint first_returning (dev : float -> result pyval) (versions : list float)
  : option float :=
  match versions with
  | [] => None
  | v :: rest =>
      match dev v with
      | Ok _ => Some v
      | Raise _ => first_returning dev rest
      end
  end.

(** The exception of the last candidate when every candidate raises. *)
Fixpoint last_raised (dev : float -> result pyval) (versions : list float)
    (last_exc : option exn) : option exn :=
  match versions with
  | [] => last_exc
  | v :: rest =>
      match dev v with
      | Ok _ => last_exc
      | Raise e => last_raised dev rest (Some e)
      end
  end.

(** ** Devices of the examples *)

(** A device that is down: every version raises. *)
Definition dev_down (v : float) : result pyval :=
  if PrimFloat.eqb v 3.4%float
  then Raise (DeviceError "version refused")
  else Raise (DeviceError "timed out").

(** A device whose library reports an error in the status it returns. *)
Definition dev_error_report (v : float) : result pyval :=
  Ok (PDict [ ("Error", PStr "Network Error: Unable to Connect");
              ("Err", PStr "901"); ("Payload", PNone) ]).

(** A device that answers version 3.3 in cycle 0 and is down afterwards. *)
Definition dev_flaky (k : nat) (v : float) : result pyval :=
  match k with
  | O => dev_only_33 k v
  | S _ => dev_down v
  end.

(** The first character of a pattern is not a digit. *)
Definition head_not_digit (p : string) : bool :=
  match p with
  | EmptyString => false
  | String c _ => negb (is_digit c)
  end.

(** * Properties *)

(** ** Scaling table *)

(** The registered codes and their factors. *)
Lemma SCALE_MAP_registered (code : string) (factor : float) :
  scale_lookup SCALE_MAP code = Some factor ->
  (code = "energy_charge" /\ factor = 0.01%float) \/
  (code = "forward_energy_total" /\ factor = 0.01%float) \/
  (code = "a_current" /\ factor = 0.1%float).
Proof.
  unfold SCALE_MAP; cbn [scale_lookup].
  destruct (String.eqb_spec "energy_charge" code) as [<-|_];
    [intros [= <-]; auto|].
  destruct (String.eqb_spec "forward_energy_total" code) as [<-|_];
    [intros [= <-]; auto|].
  destruct (String.eqb_spec "a_current" code) as [<-|_];
    [intros [= <-]; auto|].
  discriminate.
Qed.

(** C5. [apply_scaling] is a function of its two arguments: for a code with a
    registered factor and a numeric value [v] it is [round(v * factor, 3)]
    (raising where that expression raises), and for an unregistered code or a
    value that is not numeric it returns the value unchanged. The registered
    codes are those of [SCALE_MAP]. *)
Theorem apply_scaling_spec :
  (forall code factor v,
      scale_lookup SCALE_MAP code = Some factor ->
      is_number v = true ->
      apply_scaling code v = (x <- py_mul v factor ;; Ok (PFloat (py_round x 3))))
  /\
  (forall code v,
      scale_lookup SCALE_MAP code = None \/ is_number v = false ->
      apply_scaling code v = Ok v)
  /\
  (forall code factor,
      scale_lookup SCALE_MAP code = Some factor <-> In (code, factor) SCALE_MAP).
Proof.
  split; [|split].
  - intros code factor v Hreg Hnum. unfold apply_scaling.
    rewrite Hreg, Hnum. reflexivity.
  - intros code v [Hreg | Hnum]; unfold apply_scaling.
    + rewrite Hreg. reflexivity.
    + destruct (scale_lookup SCALE_MAP code); [rewrite Hnum|]; reflexivity.
  - intros code factor. split.
    + intros H.
      destruct (SCALE_MAP_registered _ _ H) as [[-> ->] | [[-> ->] | [-> ->]]];
        cbn; auto.
    + intros [[= <- <-] | [[= <- <-] | [[= <- <-] | []]]]; reflexivity.
Qed.

Lemma apply_scaling_spec_witness :
  apply_scaling "a_current" (PInt 55) = Ok (PFloat 5.5%float) /\
  apply_scaling "a_current" (PStr "55") = Ok (PStr "55") /\
  apply_scaling "dps_1" (PInt 220) = Ok (PInt 220).
Proof.
  split; [|split].
  - rewrite (proj1 apply_scaling_spec "a_current" 0.1%float (PInt 55));
      reflexivity.
  - apply (proj1 (proj2 apply_scaling_spec) "a_current" (PStr "55")).
    right; reflexivity.
  - apply (proj1 (proj2 apply_scaling_spec) "dps_1" (PInt 220)).
    left; reflexivity.
Defined.

(** C9. Booleans pass the numeric test: under a registered code [True] is
    scaled to [round(1 * factor, 3)] and [False] to [0.0]; the boolean is not
    returned. *)
Theorem apply_scaling_bool (code : string) (factor : float) :
  scale_lookup SCALE_MAP code = Some factor ->
  apply_scaling code (PBool true) = Ok (PFloat (py_round (1 * factor) 3)) /\
  apply_scaling code (PBool false) = Ok (PFloat 0%float) /\
  forall b, apply_scaling code (PBool b) <> Ok (PBool b).
Proof.
  intros Hreg. unfold apply_scaling. rewrite Hreg.
  destruct (SCALE_MAP_registered _ _ Hreg) as [[_ ->] | [[_ ->] | [_ ->]]];
    (split; [reflexivity | split; [reflexivity |]]);
    intros [|]; vm_compute; discriminate.
Qed.

Lemma apply_scaling_bool_witness :
  apply_scaling "a_current" (PBool true) = Ok (PFloat 0.1%float) /\
  apply_scaling "a_current" (PBool false) = Ok (PFloat 0%float).
Proof.
  destruct (apply_scaling_bool "a_current" 0.1%float eq_refl) as (Ht & Hf & _).
  split; [rewrite Ht; reflexivity | exact Hf].
Defined.

(** ** Unit and device-class inference *)

Lemma guess_first_match (code : string) :
  guess_unit_and_device_class code = first_match unit_class_rules (lower code).
Proof. reflexivity. Qed.

(** C3, as the code has it. The inference is the first match of the rules
    taken in the order temperature, current, voltage, power, energy,
    frequency, percentage, on the lowered name, whichever way the name was
    lowered; no match gives [(None, None)]. The temperature test is: the
    name contains "temp_current" or "temperature", or starts with "temp", or
    ends with "_temp". A name that passes it resolves to temperature whether
    or not it also matches a current pattern; a name that does not pass it,
    though it may contain "temp", and that matches a current pattern resolves
    to current. *)
Theorem guess_temperature_precedence :
  (forall code, guess_unit_and_device_class code = guess_lowered (lower code))
  /\ (forall c, guess_lowered c = first_match unit_class_rules c)
  /\ (forall c,
         forallb (fun rule => negb (fst rule c)) unit_class_rules = true ->
         guess_lowered c = (None, None))
  /\ (forall c,
         is_temperature c =
         str_in "temp_current" c || str_in "temperature" c
         || startswith c "temp" || endswith c "_temp")
  /\ (forall c,
         str_in "temp_current" c = true \/ str_in "temperature" c = true
         \/ startswith c "temp" = true \/ endswith c "_temp" = true ->
         guess_lowered c = (Some "Â°C", Some "temperature")
         /\ guess_lowered c <> (Some "A", None))
  /\ (forall c,
         is_temperature c = false -> is_current c = true ->
         guess_lowered c = (Some "A", None)).
Proof.
  split; [reflexivity|].
  split; [reflexivity|].
  split; [|split; [reflexivity | split]].
  - intros c. unfold guess_lowered, unit_class_rules. cbn [forallb fst].
    intros H.
    repeat (apply andb_prop in H; destruct H as [?%negb_true_iff H]).
    repeat match goal with Hp : _ = false |- _ => rewrite Hp; clear Hp end.
    reflexivity.
  - intros c H.
    assert (Ht : is_temperature c = true).
    { unfold is_temperature.
      destruct H as [-> | [-> | [-> | ->]]];
        rewrite ?orb_true_r; reflexivity. }
    unfold guess_lowered. rewrite Ht. split; [reflexivity | discriminate].
  - intros c Ht Hc. unfold guess_lowered. rewrite Ht, Hc. reflexivity.
Qed.

Lemma guess_temperature_precedence_witness :
  guess_unit_and_device_class "Temp_I_1" = (Some "Â°C", Some "temperature")
  /\ guess_lowered "ntc_temp" = (Some "Â°C", Some "temperature")
  /\ guess_lowered "pcb_temp_i_1" = (Some "A", None)
  /\ guess_lowered "switch" = (None, None).
Proof.
  destruct guess_temperature_precedence as (Hlow & _ & Hnone & _ & Htemp & Hcur).
  split; [|split; [|split]].
  - rewrite Hlow. apply (Htemp (lower "Temp_I_1")).
    right; right; left. reflexivity.
  - apply (Htemp "ntc_temp"). right; right; right. reflexivity.
  - apply (Hcur "pcb_temp_i_1"); reflexivity.
  - apply (Hnone "switch"). reflexivity.
Defined.

(** Names that contain both "temp" and "i_" and resolve to current: the
    temperature test is not "contains temp". *)
Lemma guess_temp_and_current_is_current :
  (str_in "temp" (lower "pcb_temp_i_1") = true
   /\ str_in "i_" (lower "pcb_temp_i_1") = true
   /\ guess_unit_and_device_class "pcb_temp_i_1" = (Some "A", None))
  /\ (str_in "temp" (lower "i_tempx") = true
      /\ str_in "i_" (lower "i_tempx") = true
      /\ guess_unit_and_device_class "i_tempx" = (Some "A", None)).
Proof. repeat split. Qed.

(** A name written with U+212A KELVIN SIGN is lowered to "kwh". *)
Example guess_kelvin_sign :
  guess_unit_and_device_class (String "226" (String "132" (String "170" "Wh")))
  = (Some "kWh", Some "energy").
Proof. reflexivity. Qed.

(** ** Dictionaries *)

Lemma dict_get_In_keys (d : dict) (k : string) :
  In k (keys d) <-> exists v, dict_get d k = Some v.
Proof.
  induction d as [|[k' v'] d IH]; cbn [keys map fst dict_get In].
  - split; [tauto | intros [v Hv]; discriminate].
  - destruct (String.eqb_spec k' k) as [->|Hne].
    + split; [eauto | auto].
    + rewrite <- IH. fold (keys d). split; [intros [?|?]; [congruence|auto] | auto].
Qed.

Lemma dict_get_not_In (d : dict) (k : string) :
  ~ In k (keys d) -> dict_get d k = None.
Proof.
  intros Hn. destruct (dict_get d k) as [v|] eqn:E; [|reflexivity].
  exfalso. apply Hn, dict_get_In_keys. eauto.
Qed.

Lemma dict_set_same (d : dict) (k : string) (v : pyval) :
  dict_get d k = Some v -> dict_set d k v = d.
Proof.
  induction d as [|[k' v'] d IH]; cbn [dict_get dict_set]; [discriminate|].
  destruct (String.eqb k' k); [intros [= ->]; reflexivity|].
  intros H. rewrite (IH H). reflexivity.
Qed.

Lemma dict_set_fresh (d : dict) (k : string) (v : pyval) :
  ~ In k (keys d) -> dict_set d k v = (d ++ [(k, v)])%list.
Proof.
  induction d as [|[k' v'] d IH]; cbn [keys map fst In dict_set app]; [reflexivity|].
  intros Hn. destruct (String.eqb_spec k' k) as [->|_]; [tauto|].
  fold (keys d) in Hn. rewrite IH by tauto. reflexivity.
Qed.

Lemma dict_get_set (d : dict) (k k' : string) (v : pyval) :
  dict_get (dict_set d k v) k' =
  if String.eqb k k' then Some v else dict_get d k'.
Proof.
  induction d as [|[k0 v0] d IH]; cbn [dict_set dict_get].
  - reflexivity.
  - destruct (String.eqb_spec k0 k) as [->|Hne]; cbn [dict_get].
    + destruct (String.eqb k k'); reflexivity.
    + destruct (String.eqb_spec k0 k') as [->|Hne'].
      * destruct (String.eqb_spec k k'); [congruence | reflexivity].
      * exact IH.
Qed.

Lemma In_keys_dict_set (d : dict) (k k' : string) (v : pyval) :
  In k' (keys (dict_set d k v)) <-> k' = k \/ In k' (keys d).
Proof.
  rewrite !dict_get_In_keys, dict_get_set.
  destruct (String.eqb_spec k k') as [->|Hne].
  - split; eauto.
  - split; [auto | intros [?|?]; [congruence | assumption]].
Qed.

Lemma NoDup_keys_dict_set (d : dict) (k : string) (v : pyval) :
  NoDup (keys d) -> NoDup (keys (dict_set d k v)).
Proof.
  induction d as [|[k' v'] d IH]; cbn [dict_set keys map fst]; intros Hnd.
  - constructor; [intros [] | constructor].
  - inversion Hnd as [|? ? Hni Hnd']; subst.
    destruct (String.eqb_spec k' k) as [->|Hne]; cbn [map fst].
    + constructor; assumption.
    + constructor; [|apply IH; assumption].
      fold (keys (dict_set d k v)). rewrite In_keys_dict_set. tauto.
Qed.

(** ** The scaling pass *)

Lemma unregistered_dps (k : string) : scale_lookup SCALE_MAP ("dps_" ++ k) = None.
Proof.
  destruct (scale_lookup SCALE_MAP ("dps_" ++ k)) as [f|] eqn:E; [|reflexivity].
  destruct (SCALE_MAP_registered _ _ E) as [[H _] | [[H _] | [H _]]];
    discriminate H.
Qed.

Lemma apply_scaling_unregistered (k : string) (v : pyval) :
  scale_lookup SCALE_MAP k = None -> apply_scaling k v = Ok v.
Proof. intros H. unfold apply_scaling. rewrite H. reflexivity. Qed.

(** Where no key of [ks] is registered the pass leaves the dict as it is. *)
Lemma scale_keys_unregistered (ks : list string) (out : dict) :
  (forall k, In k ks -> In k (keys out)) ->
  (forall k, In k ks -> scale_lookup SCALE_MAP k = None) ->
  scale_keys ks out = Ok out.
Proof.
  induction ks as [|k ks IH]; intros Hin Hun; cbn [scale_keys]; [reflexivity|].
  destruct (proj1 (dict_get_In_keys out k) (Hin k (or_introl eq_refl))) as [v Hv].
  rewrite Hv, (apply_scaling_unregistered k v) by (apply Hun; left; reflexivity).
  cbn [bind]. rewrite (dict_set_same _ _ _ Hv).
  apply IH; intros; [apply Hin | apply Hun]; right; assumption.
Qed.

(** ** Local-protocol normalization *)

Lemma collect_dps_keys (dps out : dict) (k : string) :
  In k (keys (collect_dps dps out)) ->
  In k (keys out) \/ exists i, In i (keys dps) /\ k = "dps_" ++ i.
Proof.
  revert out. induction dps as [|[i v] dps IH]; intros out; cbn [collect_dps].
  - auto.
  - intros H. destruct (IH _ H) as [H'|(j & Hj & ->)].
    + apply In_keys_dict_set in H'. destruct H' as [->|H']; [|auto].
      right. exists i. split; [left|]; reflexivity.
    + right. exists j. split; [right; exact Hj | reflexivity].
Qed.

Lemma collect_dps_NoDup (dps out : dict) :
  NoDup (keys dps) ->
  (forall i, In i (keys dps) -> ~ In ("dps_" ++ i) (keys out)) ->
  collect_dps dps out = (out ++ map dps_entry dps)%list.
Proof.
  revert out. induction dps as [|[i v] dps IH]; intros out Hnd Hfresh;
    cbn [collect_dps map].
  - symmetry. apply app_nil_r.
  - inversion Hnd as [|? ? Hni Hnd']; subst.
    rewrite dict_set_fresh by (apply Hfresh; left; reflexivity).
    rewrite IH; [rewrite <- app_assoc; reflexivity | assumption |].
    intros j Hj. unfold keys. rewrite map_app, in_app_iff. cbn [map fst In].
    intros [H | [H | []]].
    + apply (Hfresh j); [right; exact Hj | exact H].
    + injection H as ->. apply Hni, Hj.
Qed.

Lemma flatten_local_status_dps (d dps : dict) :
  dict_get d "dps" = Some (PDict dps) ->
  flatten_local_status (PDict d) = Ok (collect_dps dps []).
Proof.
  intros Hd. unfold flatten_local_status. rewrite Hd.
  apply scale_keys_unregistered; [auto|].
  intros k Hk. destruct (collect_dps_keys _ _ _ Hk) as [[]|(i & _ & ->)].
  apply unregistered_dps.
Qed.

(** C8. The local normalizer renames every data point [k] to [dps_k] and
    passes it through [apply_scaling] under the renamed code, which no rule
    of the table matches: the snapshot of [{"dps": {"1": 220, "2": true}}] is
    exactly [{dps_1: 220, dps_2: True}], and in general the snapshot is the
    list of the renamed data points with their values unchanged. *)
Theorem flatten_local_status_renames :
  flatten_local_status
    (PDict [("dps", PDict [("1", PInt 220); ("2", PBool true)])])
  = Ok [("dps_1", PInt 220); ("dps_2", PBool true)]
  /\ (forall k v, apply_scaling ("dps_" ++ k) v = Ok v)
  /\ (forall d dps,
         dict_get d "dps" = Some (PDict dps) ->
         NoDup (keys dps) ->
         flatten_local_status (PDict d) = Ok (map dps_entry dps)).
Proof.
  split; [reflexivity | split].
  - intros k v. apply apply_scaling_unregistered, unregistered_dps.
  - intros d dps Hd Hnd. rewrite (flatten_local_status_dps _ _ Hd).
    rewrite collect_dps_NoDup; [reflexivity | assumption | intros i _ []].
Qed.

Lemma flatten_local_status_renames_witness :
  flatten_local_status
    (PDict [("t", PInt 7); ("dps", PDict [("18", PInt 55); ("101", PStr "idle")])])
  = Ok [("dps_18", PInt 55); ("dps_101", PStr "idle")].
Proof.
  apply (proj2 (proj2 flatten_local_status_renames)
           [("t", PInt 7); ("dps", PDict [("18", PInt 55); ("101", PStr "idle")])]
           [("18", PInt 55); ("101", PStr "idle")]).
  - reflexivity.
  - repeat constructor; cbn; intuition discriminate.
Defined.

(** ** Remote-API normalization *)

Section CloudNormalizer.

Variable py_repr : pyval -> string.

Lemma collect_records_get (items : list pyval) (out out' : dict) (k : string) :
  collect_records py_repr items out = Ok out' ->
  dict_get out' k =
  match record_field py_repr items k with
  | Some v => Some v
  | None => dict_get out k
  end.
Proof.
  revert out. induction items as [|item rest IH]; intros out;
    cbn [collect_records record_field].
  - intros [= <-]. reflexivity.
  - destruct item as [| | | | | |d]; cbn [item_get bind]; try discriminate.
    intros H. unfold record_entry.
    destruct (dict_get_default d "code" PNone) eqn:Ec;
      apply IH in H; rewrite H;
      destruct (record_field py_repr rest k); try reflexivity;
      rewrite dict_get_set;
      match goal with
      | |- context [String.eqb ?a k] => destruct (String.eqb a k)
      end; reflexivity.
Qed.

Lemma collect_records_NoDup (items : list pyval) (out out' : dict) :
  collect_records py_repr items out = Ok out' -> NoDup (keys out) -> NoDup (keys out').
Proof.
  revert out. induction items as [|item rest IH]; intros out;
    cbn [collect_records].
  - intros [= <-]. auto.
  - destruct item as [| | | | | |d]; cbn [item_get bind]; try discriminate.
    destruct (dict_get_default d "code" PNone); intros H Hnd;
      apply (IH _ H); auto using NoDup_keys_dict_set.
Qed.

Lemma collect_toplevel_get (st out : dict) (k : string) :
  dict_get (collect_toplevel st out) k =
  match toplevel_field st k with
  | Some v => Some v
  | None => dict_get out k
  end.
Proof.
  revert out. induction st as [|[k' v] st IH]; intros out;
    cbn [collect_toplevel toplevel_field]; [reflexivity|].
  destruct (negb (k' =? "result") && is_scalar v) eqn:E.
  - rewrite IH, dict_get_set. destruct (toplevel_field st k); [reflexivity|].
    rewrite <- andb_assoc, E, andb_true_r. destruct (k' =? k); reflexivity.
  - rewrite IH. destruct (toplevel_field st k); [reflexivity|].
    rewrite <- andb_assoc, E, andb_false_r. reflexivity.
Qed.

Lemma collect_toplevel_NoDup (st out : dict) :
  NoDup (keys out) -> NoDup (keys (collect_toplevel st out)).
Proof.
  revert out. induction st as [|[k' v] st IH]; intros out Hnd;
    cbn [collect_toplevel]; [assumption|].
  destruct (negb (k' =? "result") && is_scalar v);
    apply IH; auto using NoDup_keys_dict_set.
Qed.

(** The scaling pass, key by key. *)
Lemma scale_keys_get (ks : list string) (cur flat : dict) :
  NoDup ks ->
  scale_keys ks cur = Ok flat ->
  forall k,
    (In k ks ->
     exists v v', dict_get cur k = Some v /\ apply_scaling k v = Ok v'
                  /\ dict_get flat k = Some v')
    /\ (~ In k ks -> dict_get flat k = dict_get cur k).
Proof.
  revert cur. induction ks as [|k0 ks IH]; intros cur Hnd; cbn [scale_keys].
  - intros [= <-] k. split; [intros [] | reflexivity].
  - inversion Hnd as [|? ? Hni Hnd']; subst.
    destruct (dict_get cur k0) as [v0|] eqn:E0; [|discriminate].
    destruct (apply_scaling k0 v0) as [v0'|] eqn:Es; [|discriminate].
    cbn [bind]. intros H k. specialize (IH _ Hnd' H).
    destruct (String.eqb_spec k0 k) as [<-|Hne].
    + split; [intros _ | intros Hn; exfalso; apply Hn; left; reflexivity].
      exists v0, v0'. repeat split; try assumption.
      rewrite (proj2 (IH k0) Hni), dict_get_set, String.eqb_refl. reflexivity.
    + assert (Hget : dict_get (dict_set cur k0 v0') k = dict_get cur k).
      { rewrite dict_get_set. destruct (String.eqb_spec k0 k); congruence. }
      split.
      * intros [?|Hin]; [congruence|].
        destruct (proj1 (IH k) Hin) as (v & v' & Hv & Hs & Hf).
        exists v, v'. rewrite <- Hget. auto.
      * intros Hn. rewrite (proj2 (IH k)), Hget; [reflexivity|].
        intros Hin. apply Hn. right. exact Hin.
Qed.

(** The snapshot of a dict status, field by field: a field is there exactly
    when the input gives it a raw value, and holds that value scaled. *)
Lemma flatten_cloud_status_get (st flat : dict) (k : string) :
  flatten_cloud_status py_repr (PDict st) = Ok flat ->
  match raw_field py_repr st k with
  | Some v => exists v', apply_scaling k v = Ok v' /\ dict_get flat k = Some v'
  | None => dict_get flat k = None
  end.
Proof.
  unfold flatten_cloud_status, raw_field, result_list.
  set (recs := match dict_get st "result" with
               | Some (PList items) => collect_records py_repr items []
               | _ => Ok []
               end).
  destruct recs as [out|e] eqn:Er; [|discriminate]. cbn [bind].
  assert (Hout : NoDup (keys out) /\
                 dict_get out k =
                 match dict_get st "result" with
                 | Some (PList items) => record_field py_repr items k
                 | _ => None
                 end).
  { subst recs. destruct (dict_get st "result") as [[| | | | |items|]|];
      try (injection Er as <-; split; [constructor | reflexivity]).
    split; [eapply collect_records_NoDup; [exact Er | constructor]|].
    rewrite (collect_records_get _ _ _ k Er).
    destruct (record_field py_repr items k); reflexivity. }
  destruct Hout as [Hnd Hget]. intros H.
  pose proof (scale_keys_get _ _ _ (collect_toplevel_NoDup st out Hnd) H k)
    as [Hin Hout].
  pose proof (collect_toplevel_get st out k) as Hraw.
  assert (Hraw' : dict_get (collect_toplevel st out) k =
                  match toplevel_field st k with
                  | Some v => Some v
                  | None =>
                      match
                        match dict_get st "result" with
                        | Some (PList items) => Some items
                        | _ => None
                        end
                      with
                      | Some items => record_field py_repr items k
                      | None => None
                      end
                  end).
  { rewrite Hraw, Hget.
    destruct (toplevel_field st k); [reflexivity|].
    destruct (dict_get st "result") as [[| | | | |items|]|]; reflexivity. }
  rewrite <- Hraw'. clear Hraw Hraw' Hget.
  destruct (dict_get (collect_toplevel st out) k) as [v|] eqn:E.
  - destruct Hin as (v1 & v' & Hv & Hs & Hf).
    { apply dict_get_In_keys. eauto. }
    exists v'. split; congruence.
  - rewrite Hout; [reflexivity|].
    intros Hk. apply dict_get_In_keys in Hk. destruct Hk as [? Hk]. congruence.
Qed.

Lemma toplevel_field_result (st : dict) : toplevel_field st "result" = None.
Proof.
  induction st as [|[k' v] st IH]; cbn [toplevel_field]; [reflexivity|].
  rewrite IH. destruct (k' =? "result"); reflexivity.
Qed.

Lemma toplevel_field_scalar (st : dict) (k : string) (v : pyval) :
  toplevel_field st k = Some v -> In (k, v) st /\ is_scalar v = true.
Proof.
  induction st as [|[k' v'] st IH]; cbn [toplevel_field In]; [discriminate|].
  destruct (toplevel_field st k) as [w|].
  - intros [= ->]. destruct (IH eq_refl). auto.
  - destruct (String.eqb_spec k' k) as [->|_]; cbn [andb]; [|discriminate].
    destruct (negb (k =? "result")); cbn [andb]; [|discriminate].
    destruct (is_scalar v') eqn:E; [|discriminate].
    intros [= ->]. auto.
Qed.

(** *** When the normalizer returns *)

Lemma apply_scaling_scalable (k : string) (v : pyval) :
  scalable v = true ->
  exists v', apply_scaling k v = Ok v' /\ scalable v' = true.
Proof.
  intros Hv. unfold apply_scaling.
  destruct (scale_lookup SCALE_MAP k) as [f|]; [|eauto].
  destruct v as [|[|]|z|x|s|l|d]; cbn [is_number]; eauto;
    unfold py_mul, to_float; cbn [bind].
  - vm_compute float_of_int. cbn [bind]. eauto.
  - vm_compute float_of_int. cbn [bind]. eauto.
  - cbn [scalable] in Hv. destruct (float_of_int z); [|discriminate].
    cbn [bind]. eauto.
  - eauto.
Qed.

Lemma all_scalable_get (d : dict) (k : string) (v : pyval) :
  all_scalable d = true -> dict_get d k = Some v -> scalable v = true.
Proof.
  induction d as [|[k' v'] d IH]; cbn [all_scalable forallb dict_get snd];
    [discriminate|].
  intros [Hv Hd]%andb_prop. destruct (k' =? k); [intros [= <-]; exact Hv|].
  apply IH, Hd.
Qed.

Lemma all_scalable_set (d : dict) (k : string) (v : pyval) :
  all_scalable d = true -> scalable v = true ->
  all_scalable (dict_set d k v) = true.
Proof.
  intros Hd Hv. induction d as [|[k' v'] d IH];
    cbn [all_scalable forallb dict_set snd] in *.
  - rewrite Hv. reflexivity.
  - apply andb_prop in Hd. destruct Hd as [Hv' Hd].
    destruct (k' =? k); cbn [forallb snd].
    + rewrite Hv. exact Hd.
    + rewrite Hv'. exact (IH Hd).
Qed.

Lemma scale_keys_total (ks : list string) (cur : dict) :
  (forall k, In k ks -> In k (keys cur)) ->
  all_scalable cur = true ->
  exists flat, scale_keys ks cur = Ok flat.
Proof.
  revert cur. induction ks as [|k ks IH]; intros cur Hin Hs; cbn [scale_keys].
  - eauto.
  - destruct (proj1 (dict_get_In_keys cur k) (Hin k (or_introl eq_refl)))
      as [v Hv].
    rewrite Hv.
    destruct (apply_scaling_scalable k v (all_scalable_get _ _ _ Hs Hv))
      as (v' & -> & Hv').
    cbn [bind]. apply IH.
    + intros k' Hk'. apply In_keys_dict_set. right. apply Hin. right. exact Hk'.
    + apply all_scalable_set; assumption.
Qed.

Lemma collect_records_total (items : list pyval) (out : dict) :
  records_ok items = true ->
  all_scalable out = true ->
  exists out', collect_records py_repr items out = Ok out'
               /\ all_scalable out' = true.
Proof.
  revert out. induction items as [|item rest IH]; intros out;
    cbn [records_ok forallb collect_records].
  - eauto.
  - intros [Hi Hr]%andb_prop Hs. fold (records_ok rest) in Hr.
    destruct item as [| | | | | |d]; try discriminate. cbn [item_get bind].
    destruct (dict_get_default d "code" PNone);
      apply IH; auto using all_scalable_set.
Qed.

Lemma collect_toplevel_scalable (st out : dict) :
  all_scalable st = true -> all_scalable out = true ->
  all_scalable (collect_toplevel st out) = true.
Proof.
  revert out. induction st as [|[k v] st IH]; intros out;
    cbn [all_scalable forallb collect_toplevel snd]; [auto|].
  intros [Hv Hst]%andb_prop Hs.
  destruct (negb (k =? "result") && is_scalar v);
    apply IH; auto using all_scalable_set.
Qed.

Lemma flatten_cloud_status_total (st : dict) :
  cloud_input_ok st = true ->
  exists flat, flatten_cloud_status py_repr (PDict st) = Ok flat.
Proof.
  unfold cloud_input_ok, result_list, flatten_cloud_status.
  intros [Hr Hs]%andb_prop.
  assert (Hrec : exists out,
             match dict_get st "result" with
             | Some (PList items) => collect_records py_repr items []
             | _ => Ok []
             end = Ok out /\ all_scalable out = true).
  { destruct (dict_get st "result") as [[| | | | |items|]|]; eauto.
    apply collect_records_total; auto. }
  destruct Hrec as (out & -> & Hout). cbn [bind].
  apply scale_keys_total; auto using collect_toplevel_scalable.
Qed.

(** C7. The remote-API snapshot of the specification's example is
    [{a_current: 5.5, status_extra: "ok"}]. On a dict status the normalizer
    returns whenever every record is a dict and no integer is too large to
    scale; the snapshot then holds exactly the fields to which the input
    gives a raw value, each scaled: a scalar top-level entry other than
    "result" under its own name, else the last record whose code, as a
    string, is the name. The top-level "result" entry is never a field: a
    field named "result" comes from a record of that code. *)
Theorem flatten_cloud_status_fields :
  flatten_cloud_status py_repr status_spec_example
  = Ok [("a_current", PFloat 5.5%float); ("status_extra", PStr "ok")]
  /\ (forall st, cloud_input_ok st = true ->
                 exists flat, flatten_cloud_status py_repr (PDict st) = Ok flat)
  /\ (forall st flat k,
         flatten_cloud_status py_repr (PDict st) = Ok flat ->
         match raw_field py_repr st k with
         | Some v =>
             exists v', apply_scaling k v = Ok v' /\ dict_get flat k = Some v'
         | None => dict_get flat k = None
         end)
  /\ (forall st k v,
         toplevel_field st k = Some v ->
         k <> "result" /\ In (k, v) st /\ is_scalar v = true)
  /\ (forall st flat,
         flatten_cloud_status py_repr (PDict st) = Ok flat ->
         In "result" (keys flat) ->
         exists items v, result_list st = Some items
                         /\ record_field py_repr items "result" = Some v).
Proof.
  split; [reflexivity|].
  split; [exact flatten_cloud_status_total|].
  split; [intros st flat k H; exact (flatten_cloud_status_get st flat k H)|].
  split.
  - intros st k v H. split; [|exact (toplevel_field_scalar st k v H)].
    intros ->. rewrite toplevel_field_result in H. discriminate.
  - intros st flat H Hin.
    pose proof (flatten_cloud_status_get st flat "result" H) as Hg.
    unfold raw_field in Hg. rewrite toplevel_field_result in Hg.
    apply dict_get_In_keys in Hin. destruct Hin as [w Hw].
    destruct (result_list st) as [items|]; [|congruence].
    destruct (record_field py_repr items "result") as [v|] eqn:Ev;
      [|congruence].
    eauto.
Qed.

End CloudNormalizer.

Lemma flatten_cloud_status_fields_witness :
  (exists flat, flatten_cloud_status repr_any status_spec_example = Ok flat)
  /\ (exists v', apply_scaling "a_current" (PInt 55) = Ok v'
                 /\ dict_get [("a_current", PFloat 5.5%float); ("status_extra", PStr "ok")]
                      "a_current" = Some v')
  /\ ("status_extra" <> "result"
      /\ In ("status_extra", PStr "ok")
           [ ("result", PList [PDict [("code", PStr "a_current"); ("value", PInt 55)]]);
             ("status_extra", PStr "ok") ]
      /\ is_scalar (PStr "ok") = true)
  /\ (exists items v,
         result_list [("result", PList [PDict [("code", PStr "result"); ("value", PInt 1)]])]
         = Some items
         /\ record_field repr_any items "result" = Some v).
Proof.
  destruct (flatten_cloud_status_fields repr_any) as (_ & Htot & Hget & Htop & Hres).
  split; [|split; [|split]].
  - apply Htot. reflexivity.
  - exact (Hget
             [ ("result", PList [PDict [("code", PStr "a_current"); ("value", PInt 55)]]);
               ("status_extra", PStr "ok") ]
             [("a_current", PFloat 5.5%float); ("status_extra", PStr "ok")]
             "a_current" eq_refl).
  - apply Htop. reflexivity.
  - apply (Hres
             [("result", PList [PDict [("code", PStr "result"); ("value", PInt 1)]])]
             [("result", PInt 1)]); [reflexivity | left; reflexivity].
Defined.

(** The key "result" is a field of the snapshot when a record carries that
    code. *)
Lemma result_key_in_snapshot :
  flatten_cloud_status repr_any status_result_code = Ok [("result", PInt 1)]
  /\ In "result" (keys [("result", PInt 1)]).
Proof. split; [reflexivity | left; reflexivity]. Qed.

(** ** Malformed input *)

Lemma flatten_local_status_total (data : pyval) :
  exists flat, flatten_local_status data = Ok flat.
Proof.
  unfold flatten_local_status.
  set (out := match data with
              | PDict d =>
                  match dict_get d "dps" with
                  | Some (PDict dps) => collect_dps dps []
                  | _ => []
                  end
              | _ => []
              end).
  exists out. apply scale_keys_unregistered; [auto|].
  intros k Hk. subst out.
  destruct data as [| | | | | |d]; try contradiction.
  destruct (dict_get d "dps") as [[| | | | | |dps]|]; try contradiction.
  destruct (collect_dps_keys _ _ _ Hk) as [[]|(i & _ & ->)].
  apply unregistered_dps.
Qed.

Lemma flatten_local_status_no_dps (data : pyval) :
  has_dps data = false -> flatten_local_status data = Ok [].
Proof.
  unfold has_dps, flatten_local_status.
  destruct data as [| | | | | |d]; try reflexivity.
  destruct (dict_get d "dps") as [[| | | | | |dps]|];
    try reflexivity; discriminate.
Qed.

Lemma collect_toplevel_no_scalar (st out : dict) :
  no_toplevel_scalar st = true -> collect_toplevel st out = out.
Proof.
  induction st as [|[k v] st IH];
    cbn [no_toplevel_scalar forallb collect_toplevel fst snd]; [reflexivity|].
  intros [Hkv Hst]%andb_prop.
  destruct (k =? "result"); cbn [negb andb orb] in *; [exact (IH Hst)|].
  destruct (is_scalar v); [discriminate | exact (IH Hst)].
Qed.

Section PollLoops.

Variable py_repr : pyval -> string.
Variable json_dumps : pyval -> string.

Lemma collect_records_without_code (items : list pyval) (out : dict) :
  forallb record_without_code items = true ->
  collect_records py_repr items out = Ok out.
Proof.
  induction items as [|item rest IH]; cbn [forallb collect_records];
    [reflexivity|].
  intros [Hi Hr]%andb_prop.
  destruct item as [| | | | | |d]; try discriminate. cbn [item_get bind].
  cbn [record_without_code] in Hi.
  destruct (dict_get_default d "code" PNone); try discriminate.
  exact (IH Hr).
Qed.

Lemma record_field_without_code (items : list pyval) (k : string) :
  forallb record_without_code items = true ->
  record_field py_repr items k = None.
Proof.
  induction items as [|item rest IH]; cbn [forallb record_field];
    [reflexivity|].
  intros [Hi Hr]%andb_prop. rewrite (IH Hr).
  destruct item as [| | | | | |d]; try discriminate.
  cbn [record_without_code] in Hi. cbn [record_entry].
  destruct (dict_get_default d "code" PNone); try discriminate. reflexivity.
Qed.

(** With a "result" entry that gives no field, the normalizer is the scaling
    pass over the scalar top-level entries. *)
Lemma flatten_cloud_status_no_records (st : dict) :
  result_gives_no_field st = true ->
  flatten_cloud_status py_repr (PDict st)
  = scale_keys (keys (collect_toplevel st [])) (collect_toplevel st []).
Proof.
  unfold result_gives_no_field, flatten_cloud_status.
  destruct (dict_get st "result") as [[| | | | |items|]|]; try reflexivity.
  intros H. rewrite (collect_records_without_code items [] H). reflexivity.
Qed.

(** C4, as the code has it. The local normalizer never raises and returns
    the empty snapshot for every input that is not a dict holding a dict
    under "dps". The remote-API normalizer returns the empty snapshot,
    without raising, for every input that is not a dict, and for every dict
    whose "result" entry is absent, or not a list, or a list of records that
    carry no code, when the dict holds no other scalar entry; when it holds
    other scalar entries, the snapshot is exactly those entries, scaled, and
    the normalizer returns it whenever no integer is too large to scale.
    When a normalizer does raise, the cycle publishes nothing and ends with
    the exception caught. *)
Theorem normalizers_on_malformed_input :
  (forall data, exists flat, flatten_local_status data = Ok flat)
  /\ (forall data, has_dps data = false -> flatten_local_status data = Ok [])
  /\ (forall status,
         is_dict status = false -> flatten_cloud_status py_repr status = Ok [])
  /\ (forall st,
         result_gives_no_field st = true -> no_toplevel_scalar st = true ->
         flatten_cloud_status py_repr (PDict st) = Ok [])
  /\ (forall st,
         result_gives_no_field st = true -> all_scalable st = true ->
         exists flat, flatten_cloud_status py_repr (PDict st) = Ok flat)
  /\ (forall st flat k,
         result_gives_no_field st = true ->
         flatten_cloud_status py_repr (PDict st) = Ok flat ->
         match toplevel_field st k with
         | Some v =>
             exists v', apply_scaling k v = Ok v' /\ dict_get flat k = Some v'
         | None => dict_get flat k = None
         end)
  /\ (forall opt base device_id status e,
         flatten_cloud_status py_repr status = Raise e ->
         cloud_cycle py_repr json_dumps opt base device_id (Ok status)
         = mkCycle [] None None [] (Some e)).
Proof.
  split; [exact flatten_local_status_total|].
  split; [exact flatten_local_status_no_dps|].
  split; [intros [| | | | | |d]; try reflexivity; discriminate|].
  split; [|split; [|split]].
  - intros st Hr Hs. rewrite (flatten_cloud_status_no_records st Hr).
    rewrite (collect_toplevel_no_scalar st [] Hs). reflexivity.
  - intros st Hr Hs. rewrite (flatten_cloud_status_no_records st Hr).
    apply scale_keys_total; [auto|].
    apply collect_toplevel_scalable; [exact Hs | reflexivity].
  - intros st flat k Hr Hflat.
    pose proof (flatten_cloud_status_get py_repr st flat k Hflat) as Hget.
    unfold raw_field, result_list in Hget.
    destruct (toplevel_field st k) as [v|]; [exact Hget|].
    unfold result_gives_no_field in Hr.
    destruct (dict_get st "result") as [[| | | | |items|]|]; try exact Hget.
    rewrite (record_field_without_code items k Hr) in Hget. exact Hget.
  - intros opt base device_id status e H. unfold cloud_cycle. cbn [bind].
    rewrite H. reflexivity.
Qed.

End PollLoops.

Lemma normalizers_on_malformed_input_witness :
  flatten_local_status (PDict [("dps", PStr "not-a-map")]) = Ok []
  /\ flatten_cloud_status repr_any PNone = Ok []
  /\ flatten_cloud_status repr_any
       (PDict [("result", PList [PDict [("value", PInt 1)]; PDict []]);
               ("t", PNone)])
     = Ok []
  /\ (exists flat,
         flatten_cloud_status repr_any
           (PDict [("result", PStr "not-a-list"); ("a_current", PInt 55)])
         = Ok flat)
  /\ (exists v',
         apply_scaling "a_current" (PInt 55) = Ok v'
         /\ dict_get [("a_current", PFloat 5.5%float)] "a_current" = Some v')
  /\ cloud_cycle repr_any json_any [] "gocean_ev/dev1" "dev1" (Ok status_bad_record)
     = mkCycle [] None None [] (Some AttributeError).
Proof.
  destruct (normalizers_on_malformed_input repr_any json_any)
    as (_ & Hl & Hc & Hr & Htot & Hget & Hcyc).
  split; [apply Hl; reflexivity|].
  split; [apply Hc; reflexivity|].
  split; [apply Hr; reflexivity|].
  split; [apply Htot; reflexivity|].
  split; [|apply Hcyc; reflexivity].
  exact (Hget [("result", PStr "not-a-list"); ("a_current", PInt 55)]
           [("a_current", PFloat 5.5%float)] "a_current" eq_refl eq_refl).
Defined.

(** The remote-API normalizer raises on a "result" list that holds something
    other than a record, and keeps the scalar entries that stand next to a
    "result" entry that is not a list. *)
Lemma flatten_cloud_status_malformed_result :
  flatten_cloud_status repr_any status_bad_record = Raise AttributeError
  /\ flatten_cloud_status repr_any status_bad_result = Ok [("a", PInt 1)].
Proof. split; reflexivity. Qed.

(** ** Publication *)

Lemma replace_spaces_without_space (s : string) :
  str_in " " s = false -> replace_spaces s = s.
Proof.
  induction s as [|c s IH]; cbn [str_in replace_spaces String.prefix];
    [reflexivity|].
  destruct (ascii_dec " " c) as [<-|Hc].
  - destruct s; discriminate.
  - cbn [orb]. intros H. rewrite (IH H).
    destruct (Ascii.eqb_spec c " "); [congruence | reflexivity].
Qed.

Lemma replace_spaces_with_space (s : string) :
  str_in " " s = true -> replace_spaces s <> s.
Proof.
  induction s as [|c s IH]; cbn [str_in replace_spaces String.prefix];
    [discriminate|].
  destruct (ascii_dec " " c) as [<-|Hc].
  - intros _. cbn. discriminate.
  - cbn [orb]. intros H Heq. injection Heq as _ Heq. exact (IH H Heq).
Qed.

Lemma append_inj_l (p s t : string) : p ++ s = p ++ t -> s = t.
Proof.
  induction p as [|c p IH]; cbn [append]; [auto|].
  intros [= H]. exact (IH H).
Qed.

Lemma dict_get_set_if_truthy (p : dict) (k k' : string) (o : option string) :
  k <> k' -> dict_get (set_if_truthy p k o) k' = dict_get p k'.
Proof.
  intros Hne. unfold set_if_truthy. destruct o as [u|]; [|reflexivity].
  destruct (truthy (PStr u)); [|reflexivity].
  rewrite dict_get_set. destruct (String.eqb_spec k k'); congruence.
Qed.

Lemma discovery_payload_stat_t (base device_id : string) (dev : pyval)
    (key : string) :
  dict_get (discovery_payload base device_id dev key) "stat_t"
  = Some (PStr (base ++ "/" ++ key)).
Proof.
  unfold discovery_payload.
  destruct (guess_unit_and_device_class key) as [unit dclass].
  rewrite !dict_get_set_if_truthy by discriminate. reflexivity.
Qed.

Section Publication.

Variable py_repr : pyval -> string.
Variable json_dumps : pyval -> string.

Lemma discovery_loop_retained (base device_id : string) (dev : pyval)
    (items : dict) :
  Forall (fun m => retain m = true)
    (discovery_loop json_dumps base device_id dev items).
Proof.
  induction items as [|[code value] items IH]; cbn [discovery_loop];
    [constructor|].
  destruct (is_scalar value); [constructor; [reflexivity|]|]; exact IH.
Qed.

Lemma publish_values_not_retained (base : string) (flat : dict) :
  Forall (fun m => retain m = false)
    (publish_values py_repr json_dumps base flat).
Proof.
  unfold publish_values. apply Forall_forall. intros m Hm.
  apply in_map_iff in Hm. destruct Hm as ([k v] & <- & _). reflexivity.
Qed.

Lemma cloud_cycle_log (opt : dict) (base device_id : string)
    (fetched : result pyval) :
  cycle_log_ok py_repr json_dumps opt base device_id
    (cloud_cycle py_repr json_dumps opt base device_id fetched).
Proof.
  unfold cloud_cycle, cycle_log_ok.
  destruct (status <- fetched;; flatten_cloud_status py_repr status);
    reflexivity.
Qed.

Lemma local_cycle_log (opt : dict) (base device_id : string)
    (versions : list float) (dev : float -> result pyval)
    (current_version : option float) :
  cycle_log_ok py_repr json_dumps opt base device_id
    (local_cycle py_repr json_dumps opt base device_id versions dev
       current_version).
Proof.
  unfold local_cycle, cycle_log_ok.
  destruct (p_status _) as [| | | | | |d]; try reflexivity;
    match goal with
    | |- context [flatten_local_status ?s] =>
        destruct (flatten_local_status s); reflexivity
    end.
Qed.

Lemma run_cloud_log (opt : dict) (base device_id : string)
    (api : nat -> result pyval) (n : nat) :
  Forall (cycle_log_ok py_repr json_dumps opt base device_id)
    (run_cloud py_repr json_dumps opt base device_id api n).
Proof.
  unfold run_cloud. apply Forall_forall. intros c Hc.
  apply in_map_iff in Hc. destruct Hc as (k & <- & _).
  apply cloud_cycle_log.
Qed.

Lemma local_loop_log (opt : dict) (base device_id : string)
    (dev : nat -> float -> result pyval) (cur : option float) (k n : nat) :
  Forall (cycle_log_ok py_repr json_dumps opt base device_id)
    (local_loop py_repr json_dumps opt base device_id dev cur k n).
Proof.
  revert cur k. induction n as [|n IH]; intros cur k; cbn [local_loop];
    constructor; [apply local_cycle_log | apply IH].
Qed.

Lemma cycle_log_retain (opt : dict) (base device_id : string) (c : Cycle) :
  cycle_log_ok py_repr json_dumps opt base device_id c ->
  cycle_retain_ok py_repr json_dumps base device_id c.
Proof.
  unfold cycle_log_ok, cycle_retain_ok. destruct (c_flat c) as [flat|].
  - intros ->.
    exists (if truthy (dict_get_default opt "mqtt_discovery" (PBool true))
               && truthy (dict_get_default opt "force_discovery_on_start"
                            (PBool true))
            then publish_discovery json_dumps base device_id "L6 Pro" flat
            else []),
      (publish_values py_repr json_dumps base flat).
    split; [reflexivity|].
    split; [|split; [apply publish_values_not_retained|]].
    + destruct (_ && _); [apply discovery_loop_retained | constructor].
    + split; [destruct (_ && _); auto | reflexivity].
  - intros ->. exists [], []. repeat split; constructor.
Qed.

(** C6. Every message of the discovery publisher is published retained and
    every value message is published not retained; in the remote-API loop
    and in the local loop alike, the log of each cycle is discovery
    messages, all retained, followed by the value messages of the
    snapshot, none retained. *)
Theorem retain_flags :
  (forall base device_id model items,
      Forall (fun m => retain m = true)
        (publish_discovery json_dumps base device_id model items))
  /\ (forall base flat,
         Forall (fun m => retain m = false)
           (publish_values py_repr json_dumps base flat))
  /\ (forall opt base device_id api n,
         Forall (cycle_retain_ok py_repr json_dumps base device_id)
           (run_cloud py_repr json_dumps opt base device_id api n))
  /\ (forall opt base device_id dev n,
         Forall (cycle_retain_ok py_repr json_dumps base device_id)
           (run_local py_repr json_dumps opt base device_id dev n)).
Proof.
  split; [intros; apply discovery_loop_retained|].
  split; [intros; apply publish_values_not_retained|].
  split; intros.
  - eapply Forall_impl; [|apply run_cloud_log].
    intros c. apply cycle_log_retain.
  - eapply Forall_impl; [|apply local_loop_log].
    intros c. apply cycle_log_retain.
Qed.

(** C2, as the code has it. The discovery publisher runs over the snapshot
    of a cycle exactly when [mqtt_discovery] and [force_discovery_on_start]
    are both true (each defaults to true), whatever the number of the
    cycle: every cycle of either loop that produced a snapshot publishes
    the discovery messages of that snapshot when both flags hold and only
    the value messages when one of them does not. *)
Theorem discovery_flags_every_cycle (opt : dict) (base device_id : string) :
  (forall api n,
      Forall (cycle_log_ok py_repr json_dumps opt base device_id)
        (run_cloud py_repr json_dumps opt base device_id api n))
  /\ (forall dev n,
         Forall (cycle_log_ok py_repr json_dumps opt base device_id)
           (run_local py_repr json_dumps opt base device_id dev n))
  /\ (forall api n k,
         k < n ->
         nth_error (run_cloud py_repr json_dumps opt base device_id api n) k
         = Some (cloud_cycle py_repr json_dumps opt base device_id (api k)))
  /\ (forall flat,
         publish_cycle py_repr json_dumps opt base device_id flat =
         if truthy (dict_get_default opt "mqtt_discovery" (PBool true))
            && truthy (dict_get_default opt "force_discovery_on_start"
                         (PBool true))
         then (publish_discovery json_dumps base device_id "L6 Pro" flat
               ++ publish_values py_repr json_dumps base flat)%list
         else publish_values py_repr json_dumps base flat).
Proof.
  split; [intros; apply run_cloud_log|].
  split; [intros; apply local_loop_log|].
  split.
  - intros api n k Hk. unfold run_cloud.
    rewrite nth_error_map, nth_error_seq.
    destruct (Nat.ltb_spec k n) as [_|?]; [reflexivity | lia].
  - intros flat. unfold publish_cycle, discovery_on.
    destruct (_ && _); reflexivity.
Qed.

(** C10. The state topic announced for a field is built from its code with
    spaces replaced by underscores, its value is published under the code
    as it is: the two topics differ for every code that contains a space
    and are equal for every code that contains none. *)
Theorem discovery_state_topic (base device_id : string) (dev : pyval)
    (code : string) (value : pyval) :
  payload (discovery_msg json_dumps base device_id dev code)
  = json_dumps (PDict (discovery_payload base device_id dev (replace_spaces code)))
  /\ dict_get (discovery_payload base device_id dev (replace_spaces code)) "stat_t"
     = Some (PStr (base ++ "/" ++ replace_spaces code))
  /\ topic (value_msg py_repr json_dumps base (code, value)) = base ++ "/" ++ code
  /\ (str_in " " code = true ->
      base ++ "/" ++ replace_spaces code <> base ++ "/" ++ code)
  /\ (str_in " " code = false ->
      base ++ "/" ++ replace_spaces code = base ++ "/" ++ code).
Proof.
  split; [reflexivity|].
  split; [apply discovery_payload_stat_t|].
  split; [reflexivity|].
  split.
  - intros Hsp Heq. apply append_inj_l in Heq.
    apply (append_inj_l "/") in Heq.
    exact (replace_spaces_with_space code Hsp Heq).
  - intros Hsp. rewrite (replace_spaces_without_space code Hsp). reflexivity.
Qed.

End Publication.

Lemma discovery_flags_every_cycle_witness :
  nth_error
    (run_cloud repr_any json_any opt_discovery_unforced "gocean_ev/dev1" "dev1"
       (fun _ => Ok status_work_state) 2) 1
  = Some (cloud_cycle repr_any json_any opt_discovery_unforced "gocean_ev/dev1"
            "dev1" (Ok status_work_state)).
Proof.
  apply (proj1 (proj2 (proj2
           (discovery_flags_every_cycle repr_any json_any opt_discovery_unforced
              "gocean_ev/dev1" "dev1")))).
  lia.
Defined.

(** With discovery enabled and not forced, the first cycle, which succeeds,
    publishes the value of the field and no discovery message. *)
Lemma discovery_skipped_on_first_cycle :
  truthy (dict_get_default opt_discovery_unforced "mqtt_discovery" (PBool true))
  = true
  /\ run_cloud repr_any json_any opt_discovery_unforced "gocean_ev/dev1" "dev1"
       (fun _ => Ok status_work_state) 1
     = [ mkCycle [] None (Some [("work_state", PStr "charging")])
           [mkMsg "gocean_ev/dev1/work_state" "charging" false] None ].
Proof. split; reflexivity. Qed.

Lemma discovery_state_topic_witness :
  "gocean_ev/dev1/status_extra" <> "gocean_ev/dev1/status extra"
  /\ "gocean_ev/dev1/work_state" = "gocean_ev/dev1/work_state".
Proof.
  split.
  - apply (proj1 (proj2 (proj2 (proj2
             (discovery_state_topic repr_any json_any "gocean_ev/dev1" "dev1"
                PNone "status extra" (PStr "ok")))))).
    reflexivity.
  - apply (proj2 (proj2 (proj2 (proj2
             (discovery_state_topic repr_any json_any "gocean_ev/dev1" "dev1"
                PNone "work_state" (PStr "charging")))))).
    reflexivity.
Defined.

(** ** Local transport: version negotiation *)

Lemma probe_attempts (dev : float -> result pyval) (versions : list float)
    (st : Probe) :
  p_attempts (probe dev versions st) = (p_attempts st ++ tried dev versions)%list.
Proof.
  revert st. induction versions as [|v rest IH]; intros st; cbn [probe tried].
  - symmetry. apply app_nil_r.
  - destruct (dev v) as [status|e]; [reflexivity|].
    rewrite IH. cbn [p_attempts]. rewrite <- app_assoc. reflexivity.
Qed.

Section Negotiation.

Variable py_repr : pyval -> string.
Variable json_dumps : pyval -> string.

Lemma local_cycle_attempts (opt : dict) (base device_id : string)
    (versions : list float) (dev : float -> result pyval)
    (cur : option float) :
  c_attempts (local_cycle py_repr json_dumps opt base device_id versions dev cur)
  = tried dev versions.
Proof.
  transitivity (p_attempts (probe dev versions (mkProbe PNone cur None [])));
    [|rewrite probe_attempts; reflexivity].
  unfold local_cycle.
  destruct (p_status _) as [| | | | | |d]; try reflexivity;
    match goal with
    | |- context [flatten_local_status ?s] =>
        destruct (flatten_local_status s); reflexivity
    end.
Qed.

Lemma local_loop_length (opt : dict) (base device_id : string)
    (dev : nat -> float -> result pyval) (cur : option float) (k n : nat) :
  List.length (local_loop py_repr json_dumps opt base device_id dev cur k n) = n.
Proof.
  revert cur k. induction n as [|n IH]; intros cur k; cbn [local_loop List.length];
    [reflexivity|]. rewrite IH. reflexivity.
Qed.

(** C1, as the code has it. The local loop keeps no version for reuse: each
    cycle tries the candidates in their order from the first one, up to the
    first on which the device returns, whatever [current_version] the
    previous cycles left. With the candidates 3.4 and 3.3, a device that
    always fails on 3.4 and always answers on 3.3 is tried on 3.4 and then
    on 3.3 in every cycle, and every cycle succeeds and leaves
    [current_version] at 3.3. *)
Theorem local_negotiation_every_cycle :
  (forall opt base device_id versions dev cur,
      c_attempts
        (local_cycle py_repr json_dumps opt base device_id versions dev cur)
      = tried dev versions)
  /\ (forall opt base device_id dev n,
         truthy (dict_get_default opt "probe_versions" (PBool true)) = true ->
         (forall k, exists e, dev k 3.4%float = Raise e) ->
         (forall k, exists status,
             dev k 3.3%float = Ok status /\ status <> PNone) ->
         List.length (run_local py_repr json_dumps opt base device_id dev n) = n
         /\ Forall (fun c => c_attempts c = [3.4%float; 3.3%float]
                             /\ c_version c = Some 3.3%float
                             /\ c_error c = None)
              (run_local py_repr json_dumps opt base device_id dev n)).
Proof.
  split; [exact local_cycle_attempts|].
  intros opt base device_id dev n Hprobe H34 H33.
  split; [apply local_loop_length|].
  unfold run_local. generalize (@None float) as cur. generalize 0 as k.
  induction n as [|n IH]; intros k cur; cbn [local_loop]; constructor.
  - unfold local_cycle, local_versions. rewrite Hprobe. cbn [probe].
    destruct (H34 k) as [e ->]. destruct (H33 k) as (status & -> & Hst).
    cbn [p_status p_version p_last_exc p_attempts app].
    destruct status as [| | | | | |d]; [congruence|..];
      match goal with
      | |- context [flatten_local_status ?s] =>
          destruct (flatten_local_status_total s) as [flat ->]
      end; repeat split; reflexivity.
  - apply IH.
Qed.

End Negotiation.

Lemma local_negotiation_every_cycle_witness :
  List.length (run_local repr_any json_any [] "gocean_ev/dev1" "dev1" dev_only_33 3) = 3
  /\ Forall (fun c => c_attempts c = [3.4%float; 3.3%float]
                      /\ c_version c = Some 3.3%float
                      /\ c_error c = None)
       (run_local repr_any json_any [] "gocean_ev/dev1" "dev1" dev_only_33 3).
Proof.
  apply (proj2 (local_negotiation_every_cycle repr_any json_any)).
  - reflexivity.
  - intros k. eexists. reflexivity.
  - intros k. eexists. split; [reflexivity | discriminate].
Defined.

(** Version 3.3 answered in the first cycle; the second and the third cycle
    try 3.4 again before 3.3. *)
Lemma local_retries_first_candidate :
  map c_attempts
    (run_local repr_any json_any [] "gocean_ev/dev1" "dev1" dev_only_33 3)
  = [ [3.4%float; 3.3%float]; [3.4%float; 3.3%float]; [3.4%float; 3.3%float] ]
  /\ map c_version
       (run_local repr_any json_any [] "gocean_ev/dev1" "dev1" dev_only_33 3)
     = [ Some 3.3%float; Some 3.3%float; Some 3.3%float ].
Proof. split; reflexivity. Qed.

(** * Further properties of the code *)

(** ** The version loop of [run_local] *)

(** The loop over the candidates, in closed form. *)
Lemma probe_spec (dev : float -> result pyval) (versions : list float)
    (st : Probe) :
  probe dev versions st =
  mkProbe
    match first_returning dev versions with
    | Some v => match dev v with Ok status => status | Raise _ => PNone end
    | None => p_status st
    end
    match first_returning dev versions with
    | Some v => Some v
    | None => p_version st
    end
    (last_raised dev versions (p_last_exc st))
    (p_attempts st ++ tried dev versions).
Proof.
  revert st.
  induction versions as [|v rest IH]; intros st;
    cbn [probe first_returning last_raised tried].
  - rewrite app_nil_r. destruct st; reflexivity.
  - destruct (dev v) as [status|e] eqn:E.
    + rewrite E. reflexivity.
    + rewrite IH. cbn [p_status p_version p_last_exc p_attempts].
      rewrite <- app_assoc. reflexivity.
Qed.

Lemma tried_all_raise (dev : float -> result pyval) (versions : list float) :
  first_returning dev versions = None -> tried dev versions = versions.
Proof.
  induction versions as [|v rest IH]; cbn [first_returning tried];
    [reflexivity|].
  destruct (dev v); [discriminate|]. intros H. rewrite (IH H). reflexivity.
Qed.

Lemma first_returning_None (dev : float -> result pyval)
    (versions : list float) :
  first_returning dev versions = None <->
  forall v, In v versions -> exists e, dev v = Raise e.
Proof.
  induction versions as [|v rest IH]; cbn [first_returning In].
  - split; [intros _ v [] | reflexivity].
  - destruct (dev v) as [status|e] eqn:E.
    + split; [discriminate|]. intros H.
      destruct (H v (or_introl eq_refl)) as [e He]. congruence.
    + rewrite IH. split.
      * intros H w [<-|Hw]; [eauto | auto].
      * intros H w Hw. apply H. right. exact Hw.
Qed.

Lemma first_returning_Some (dev : float -> result pyval)
    (versions : list float) (v : float) :
  first_returning dev versions = Some v ->
  In v versions /\ exists status, dev v = Ok status.
Proof.
  induction versions as [|w rest IH]; cbn [first_returning In]; [discriminate|].
  destruct (dev w) as [status|e] eqn:E.
  - intros [= <-]. split; [left; reflexivity | eauto].
  - intros H. destruct (IH H) as [Hin Hok]. auto.
Qed.

Lemma last_raised_snoc (dev : float -> result pyval) (front : list float)
    (v : float) (e : exn) (last_exc : option exn) :
  first_returning dev front = None -> dev v = Raise e ->
  last_raised dev (front ++ [v]) last_exc = Some e.
Proof.
  revert last_exc.
  induction front as [|w front IH]; intros last_exc;
    cbn [first_returning last_raised app].
  - intros _ ->. reflexivity.
  - destruct (dev w); [discriminate|]. intros H Hv. apply IH; assumption.
Qed.

Lemma tried_prefix (dev : float -> result pyval) (versions : list float) :
  exists rest, versions = (tried dev versions ++ rest)%list.
Proof.
  induction versions as [|v vs IH]; cbn [tried].
  - exists []. reflexivity.
  - destruct (dev v).
    + exists vs. reflexivity.
    + destruct IH as [rest IH]. exists rest. cbn [app]. congruence.
Qed.

Lemma tried_before_last (dev : float -> result pyval) (versions : list float)
    (v : float) :
  In v (removelast (tried dev versions)) -> exists e, dev v = Raise e.
Proof.
  induction versions as [|w vs IH]; cbn [tried]; [intros []|].
  destruct (dev w) as [status|e] eqn:E; [intros []|].
  destruct (tried dev vs) as [|t ts] eqn:Et; [intros []|].
  cbn [removelast In]. fold (removelast (t :: ts)).
  intros [<-|H]; [eauto | apply IH, H].
Qed.

Section LocalLoop.

Variable py_repr : pyval -> string.
Variable json_dumps : pyval -> string.

(** The cycle, entered with [cur], against the cycle entered with [None]. *)
Lemma local_cycle_cur (opt : dict) (base device_id : string)
    (versions : list float) (dev : float -> result pyval)
    (cur : option float) :
  let c0 := local_cycle py_repr json_dumps opt base device_id versions dev None in
  local_cycle py_repr json_dumps opt base device_id versions dev cur
  = mkCycle (c_attempts c0)
      match first_returning dev versions with
      | Some v => Some v
      | None => cur
      end
      (c_flat c0) (c_published c0) (c_error c0).
Proof.
  cbv zeta. unfold local_cycle. rewrite !probe_spec.
  cbn [p_status p_version p_last_exc p_attempts].
  destruct (first_returning dev versions) as [v|]; [|reflexivity].
  destruct (dev v) as [[| | | | | |d]|e]; try reflexivity;
    match goal with
    | |- context [flatten_local_status ?s] =>
        destruct (flatten_local_status s); reflexivity
    end.
Qed.

Lemma local_loop_nth (opt : dict) (base device_id : string)
    (dev : nat -> float -> result pyval) (cur : option float) (k n i : nat)
    (c : Cycle) :
  nth_error (local_loop py_repr json_dumps opt base device_id dev cur k n) i
  = Some c ->
  exists cur',
    c = local_cycle py_repr json_dumps opt base device_id (local_versions opt)
          (dev (k + i)) cur'.
Proof.
  revert cur k i. induction n as [|n IH]; intros cur k i; cbn [local_loop].
  - destruct i; discriminate.
  - destruct i as [|i]; cbn [nth_error].
    + intros [= <-]. exists cur. rewrite Nat.add_0_r. reflexivity.
    + intros H. destruct (IH _ _ _ H) as [cur' ->]. exists cur'.
      replace (k + S i) with (S k + i) by lia. reflexivity.
Qed.

(** X1. Cycles of the local loop are isolated from one another: what cycle
    [k] tries, normalizes, publishes and reports is what the device does in
    cycle [k] alone; of the earlier cycles only [current_version] is kept, and
    only when no candidate returns in cycle [k]. *)
Theorem run_local_cycles_isolated (opt : dict) (base device_id : string)
    (dev : nat -> float -> result pyval) (n k : nat) (c : Cycle) :
  nth_error (run_local py_repr json_dumps opt base device_id dev n) k = Some c ->
  let c0 := local_cycle py_repr json_dumps opt base device_id
              (local_versions opt) (dev k) None in
  c_attempts c = c_attempts c0 /\ c_flat c = c_flat c0
  /\ c_published c = c_published c0 /\ c_error c = c_error c0
  /\ (first_returning (dev k) (local_versions opt) <> None ->
      c_version c = first_returning (dev k) (local_versions opt)).
Proof.
  intros H. unfold run_local in H.
  destruct (local_loop_nth _ _ _ _ _ _ _ _ _ H) as [cur ->].
  cbn [Nat.add]. cbv zeta. rewrite (local_cycle_cur _ _ _ _ _ cur).
  cbn [c_attempts c_flat c_published c_error c_version].
  repeat split.
  destruct (first_returning (dev k) (local_versions opt)); [reflexivity|].
  intros Hn. exfalso. apply Hn. reflexivity.
Qed.

(** X2. When every candidate version raises, the cycle has tried them all,
    ends with the exception of the last candidate, publishes nothing and
    leaves [current_version] as it was. *)
Theorem local_cycle_all_fail (opt : dict) (base device_id : string)
    (front : list float) (v : float) (dev : float -> result pyval)
    (cur : option float) (e : exn) :
  (forall w, In w front -> exists e', dev w = Raise e') ->
  dev v = Raise e ->
  local_cycle py_repr json_dumps opt base device_id (front ++ [v]) dev cur
  = mkCycle (front ++ [v]) cur None [] (Some e).
Proof.
  intros Hfront Hv. apply first_returning_None in Hfront.
  assert (Hall : first_returning dev (front ++ [v]) = None).
  { apply first_returning_None. intros w Hw. apply in_app_iff in Hw.
    destruct Hw as [Hw|[<-|[]]]; [|eauto].
    apply (proj1 (first_returning_None dev front) Hfront). exact Hw. }
  unfold local_cycle. rewrite probe_spec, Hall, (tried_all_raise _ _ Hall).
  cbn [p_status p_version p_last_exc p_attempts app].
  rewrite (last_raised_snoc dev front v e None Hfront Hv). reflexivity.
Qed.

(** X3. The version loop stops at the first candidate whose call returns,
    whatever it returns: when that status is not [None] and holds no dict
    under "dps" (an error report of the device library, say), the later
    candidates are not tried, the snapshot is empty, nothing is published,
    no error is reported and [current_version] is set to that candidate. *)
Theorem local_cycle_status_without_dps (opt : dict) (base device_id : string)
    (versions : list float) (dev : float -> result pyval)
    (cur : option float) (v : float) (status : pyval) :
  first_returning dev versions = Some v ->
  dev v = Ok status ->
  status <> PNone ->
  has_dps status = false ->
  local_cycle py_repr json_dumps opt base device_id versions dev cur
  = mkCycle (tried dev versions) (Some v) (Some []) [] None.
Proof.
  intros Hfirst Hv Hnone Hdps. unfold local_cycle.
  rewrite probe_spec, Hfirst, Hv.
  cbn [p_status p_version p_last_exc p_attempts app].
  pose proof (flatten_local_status_no_dps status Hdps) as Hflat.
  destruct status; try congruence; rewrite Hflat;
    unfold publish_cycle; destruct (discovery_on opt); reflexivity.
Qed.

(** X4. The versions a cycle tries are an initial segment of the candidates,
    the first candidate among them; every version tried before the last one
    tried has raised. *)
Theorem local_cycle_attempts_prefix (opt : dict) (base device_id : string)
    (v : float) (rest : list float) (dev : float -> result pyval)
    (cur : option float) :
  let c := local_cycle py_repr json_dumps opt base device_id (v :: rest) dev cur in
  (exists later, (v :: rest) = (c_attempts c ++ later)%list)
  /\ hd_error (c_attempts c) = Some v
  /\ (forall w, In w (removelast (c_attempts c)) -> exists e, dev w = Raise e).
Proof.
  cbv zeta. rewrite local_cycle_attempts.
  split; [apply tried_prefix | split].
  - cbn [tried]. destruct (dev v); reflexivity.
  - intros w. apply tried_before_last.
Qed.

Lemma local_cycle_version (opt : dict) (base device_id : string)
    (versions : list float) (dev : float -> result pyval)
    (cur : option float) :
  c_version (local_cycle py_repr json_dumps opt base device_id versions dev cur)
  = match first_returning dev versions with
    | Some v => Some v
    | None => cur
    end.
Proof. rewrite local_cycle_cur. reflexivity. Qed.

Lemma local_loop_version_kept (opt : dict) (base device_id : string)
    (dev : nat -> float -> result pyval) (cur : option float) (k n : nat) :
  cur <> None ->
  Forall (fun c => c_version c <> None)
    (local_loop py_repr json_dumps opt base device_id dev cur k n).
Proof.
  revert cur k. induction n as [|n IH]; intros cur k Hcur; cbn [local_loop];
    constructor.
  - rewrite local_cycle_version. destruct (first_returning _ _); congruence.
  - apply IH. rewrite local_cycle_version.
    destruct (first_returning _ _); congruence.
Qed.

Lemma local_loop_version_mono (opt : dict) (base device_id : string)
    (dev : nat -> float -> result pyval) (n : nat) :
  forall (cur : option float) (k i j : nat) (ci cj : Cycle),
    i <= j ->
    nth_error (local_loop py_repr json_dumps opt base device_id dev cur k n) i
    = Some ci ->
    nth_error (local_loop py_repr json_dumps opt base device_id dev cur k n) j
    = Some cj ->
    c_version ci <> None ->
    c_version cj <> None.
Proof.
  induction n as [|n IH]; intros cur k i j ci cj Hij; cbn [local_loop].
  - destruct i; discriminate.
  - destruct i as [|i], j as [|j]; cbn [nth_error]; try lia.
    + intros [= <-] [= <-]. auto.
    + intros [= <-] Hj Hv.
      pose proof (local_loop_version_kept opt base device_id dev _ (S k) n Hv)
        as Hall.
      rewrite Forall_forall in Hall. apply Hall.
      eapply nth_error_In. exact Hj.
    + apply IH. lia.
Qed.

(** X5. [current_version] never goes back to [None]: once a cycle has left a
    version in it, every later cycle leaves one too, also the cycles in which
    every candidate fails. *)
Theorem run_local_version_kept (opt : dict) (base device_id : string)
    (dev : nat -> float -> result pyval) (n i j : nat) (ci cj : Cycle) :
  i <= j ->
  nth_error (run_local py_repr json_dumps opt base device_id dev n) i = Some ci ->
  nth_error (run_local py_repr json_dumps opt base device_id dev n) j = Some cj ->
  c_version ci <> None ->
  c_version cj <> None.
Proof. unfold run_local. apply local_loop_version_mono. Qed.

End LocalLoop.

Lemma run_local_cycles_isolated_witness :
  c_error (mkCycle [3.4%float; 3.3%float] (Some 3.3%float) None []
             (Some (DeviceError "timed out")))
  = c_error (local_cycle repr_any json_any [] "gocean_ev/dev1" "dev1"
               (local_versions []) (dev_flaky 1) None).
Proof.
  destruct (run_local_cycles_isolated repr_any json_any [] "gocean_ev/dev1"
              "dev1" dev_flaky 2 1
              (mkCycle [3.4%float; 3.3%float] (Some 3.3%float) None []
                 (Some (DeviceError "timed out"))) eq_refl)
    as (_ & _ & _ & H & _).
  exact H.
Defined.

Lemma local_cycle_all_fail_witness :
  local_cycle repr_any json_any [] "gocean_ev/dev1" "dev1"
    [3.4%float; 3.3%float] dev_down (Some 3.3%float)
  = mkCycle [3.4%float; 3.3%float] (Some 3.3%float) None []
      (Some (DeviceError "timed out")).
Proof.
  apply (local_cycle_all_fail repr_any json_any [] "gocean_ev/dev1" "dev1"
           [3.4%float] 3.3%float dev_down (Some 3.3%float)
           (DeviceError "timed out")).
  - intros w [<-|[]]. eexists. reflexivity.
  - reflexivity.
Defined.

Lemma local_cycle_status_without_dps_witness :
  local_cycle repr_any json_any [] "gocean_ev/dev1" "dev1"
    [3.4%float; 3.3%float] dev_error_report None
  = mkCycle [3.4%float] (Some 3.4%float) (Some []) [] None.
Proof.
  apply (local_cycle_status_without_dps repr_any json_any [] "gocean_ev/dev1"
           "dev1" [3.4%float; 3.3%float] dev_error_report None 3.4%float
           (PDict [ ("Error", PStr "Network Error: Unable to Connect");
                    ("Err", PStr "901"); ("Payload", PNone) ])).
  - reflexivity.
  - reflexivity.
  - discriminate.
  - reflexivity.
Defined.

Lemma run_local_version_kept_witness :
  c_version (mkCycle [3.4%float; 3.3%float] (Some 3.3%float) None []
               (Some (DeviceError "timed out"))) <> None.
Proof.
  apply (run_local_version_kept repr_any json_any [] "gocean_ev/dev1" "dev1"
           dev_flaky 3 0 2
           (mkCycle [3.4%float; 3.3%float] (Some 3.3%float)
              (Some [("dps_1", PInt 220)])
              (publish_cycle repr_any json_any [] "gocean_ev/dev1" "dev1"
                 [("dps_1", PInt 220)]) None)).
  - lia.
  - reflexivity.
  - reflexivity.
  - discriminate.
Defined.

(** ** Scaling of raw readings *)

Lemma float_of_int_raise (z : Z) (e : exn) :
  float_of_int z = Raise e -> e = OverflowError.
Proof.
  unfold float_of_int.
  destruct (binary_normalize prec emax z 0 false); intros [=]; congruence.
Qed.

(** X6. Under a registered code a numeric value always comes back as a
    float, an integer too; a boolean or a float never makes [apply_scaling]
    raise, and the one exception it can raise is [OverflowError], on an
    integer too large to convert to a float. *)
Theorem apply_scaling_registered_number (code : string) (factor : float)
    (v : pyval) :
  scale_lookup SCALE_MAP code = Some factor ->
  is_number v = true ->
  (exists r, apply_scaling code v = Ok (PFloat r))
  \/ (exists z, v = PInt z /\ float_of_int z = Raise OverflowError
                /\ apply_scaling code v = Raise OverflowError).
Proof.
  intros Hreg Hnum. unfold apply_scaling. rewrite Hreg, Hnum.
  unfold py_mul. destruct v as [|[|]|z|x|s|l|d]; try discriminate;
    cbn [to_float].
  - left. vm_compute float_of_int. cbn [bind]. eauto.
  - left. vm_compute float_of_int. cbn [bind]. eauto.
  - destruct (float_of_int z) as [x|e] eqn:E; cbn [bind].
    + left. eauto.
    + pose proof (float_of_int_raise z e E) as ->. right. exists z. auto.
  - left. cbn [bind]. eauto.
Qed.

Lemma apply_scaling_registered_number_witness :
  (exists r, apply_scaling "energy_charge" (PInt 1234) = Ok (PFloat r))
  \/ (exists z, PInt 1234 = PInt z /\ float_of_int z = Raise OverflowError
                /\ apply_scaling "energy_charge" (PInt 1234) = Raise OverflowError).
Proof.
  apply (apply_scaling_registered_number "energy_charge" 0.01%float (PInt 1234));
    reflexivity.
Defined.

Lemma all_from_spec (f : Z -> bool) (n : nat) :
  forall lo, all_from f lo n = true ->
  forall z, (lo <= z < lo + Z.of_nat n)%Z -> f z = true.
Proof.
  induction n as [|n IH]; intros lo; cbn [all_from]; [lia|].
  intros [Hlo Hrest]%andb_prop z Hz.
  destruct (Z.eq_dec z lo) as [->|Hne]; [exact Hlo|].
  apply (IH (lo + 1)%Z Hrest). lia.
Qed.

Lemma scaled_exactly_factor (code code' : string) (d : float) (z : Z) :
  scale_lookup SCALE_MAP code = scale_lookup SCALE_MAP code' ->
  scaled_exactly code d z = scaled_exactly code' d z.
Proof. intros H. unfold scaled_exactly, apply_scaling. rewrite H. reflexivity. Qed.

Lemma deciamps_exact :
  all_from (scaled_exactly "a_current" 10%float) 0 (Z.to_nat 10001) = true.
Proof. vm_compute. reflexivity. Qed.

Lemma centi_kwh_exact :
  all_from (scaled_exactly "energy_charge" 100%float) 0 (Z.to_nat 10001) = true.
Proof. vm_compute. reflexivity. Qed.

(** X7. Scaling leaves no binary noise on the readings: for every raw
    integer from 0 to 10000, the scaled value of a registered field is the
    float nearest to the reading divided by 10 (for [a_current]) or by 100
    (for the two energy counters), bit for bit. *)
Theorem apply_scaling_exact_on_readings (code : string) (factor : float)
    (z : Z) :
  scale_lookup SCALE_MAP code = Some factor ->
  (0 <= z <= 10000)%Z ->
  scaled_exactly code
    (if String.eqb code "a_current" then 10%float else 100%float) z = true.
Proof.
  intros Hreg Hz.
  destruct (SCALE_MAP_registered _ _ Hreg) as [[-> _] | [[-> _] | [-> _]]];
    cbn [String.eqb Ascii.eqb Bool.eqb].
  - apply (all_from_spec _ _ _ centi_kwh_exact). lia.
  - rewrite (scaled_exactly_factor "forward_energy_total" "energy_charge")
      by reflexivity.
    apply (all_from_spec _ _ _ centi_kwh_exact). lia.
  - apply (all_from_spec _ _ _ deciamps_exact). lia.
Qed.

Lemma apply_scaling_exact_on_readings_witness :
  scaled_exactly "a_current" 10%float 3 = true.
Proof.
  apply (apply_scaling_exact_on_readings "a_current" 0.1%float 3);
    [reflexivity | lia].
Defined.

(** ** Strings *)

Lemma length_append (s t : string) :
  String.length (s ++ t) = String.length s + String.length t.
Proof.
  induction s as [|c s IH]; cbn [append String.length Nat.add]; congruence.
Qed.

Lemma append_inj_r (p s t : string) : s ++ p = t ++ p -> s = t.
Proof.
  revert t. induction s as [|c s IH]; intros [|d t] H; cbn [append] in H.
  - reflexivity.
  - exfalso. apply (f_equal String.length) in H.
    cbn [String.length] in H. rewrite length_append in H. lia.
  - exfalso. apply (f_equal String.length) in H.
    cbn [String.length] in H. rewrite length_append in H. lia.
  - injection H as -> H. rewrite (IH t H). reflexivity.
Qed.

Lemma append_assoc (s t u : string) : (s ++ t) ++ u = s ++ (t ++ u).
Proof. induction s as [|c s IH]; cbn [append]; congruence. Qed.

Lemma replace_spaces_idem (s : string) :
  replace_spaces (replace_spaces s) = replace_spaces s.
Proof.
  induction s as [|c s IH]; cbn [replace_spaces]; [reflexivity|].
  rewrite IH. destruct (Ascii.eqb_spec c " ") as [->|Hc]; [reflexivity|].
  destruct (Ascii.eqb_spec c " "); [contradiction | reflexivity].
Qed.

Lemma lower_digits (s : string) : all_digits s = true -> lower s = s.
Proof.
  induction s as [|c s IH]; cbn [all_digits]; [reflexivity|].
  intros [Hc Hs]%andb_prop. specialize (IH Hs).
  destruct c as [[] [] [] [] [] [] [] []]; try discriminate Hc;
    cbn [lower]; rewrite IH; reflexivity.
Qed.

Lemma prefix_digit (p : string) (c : ascii) (s : string) :
  head_not_digit p = true -> is_digit c = true ->
  String.prefix p (String c s) = false.
Proof.
  destruct p as [|a p]; cbn [head_not_digit String.prefix]; [discriminate|].
  intros Ha Hc. destruct (ascii_dec a c) as [->|_]; [|reflexivity].
  rewrite Hc in Ha. discriminate.
Qed.

Lemma str_in_digits (p s : string) :
  head_not_digit p = true -> all_digits s = true -> str_in p s = false.
Proof.
  intros Hp. induction s as [|c s IH]; cbn [all_digits str_in].
  - destruct p; [discriminate | reflexivity].
  - intros [Hc Hs]%andb_prop. rewrite (prefix_digit p c s Hp Hc), (IH Hs).
    reflexivity.
Qed.

Lemma eqb_digits (p s : string) :
  head_not_digit p = true -> all_digits s = true -> String.eqb s p = false.
Proof.
  destruct p as [|a p]; [discriminate|]. cbn [head_not_digit].
  destruct s as [|c s]; cbn [all_digits String.eqb]; [reflexivity|].
  intros Ha [Hc _]%andb_prop.
  destruct (Ascii.eqb_spec c a) as [->|_]; [|reflexivity].
  rewrite Hc in Ha. discriminate.
Qed.

Lemma endswith_digits (p s : string) :
  head_not_digit p = true -> all_digits s = true -> endswith s p = false.
Proof.
  intros Hp. induction s as [|c s IH]; cbn [endswith].
  - destruct p; [discriminate | reflexivity].
  - intros Hs. rewrite (eqb_digits p (String c s) Hp Hs).
    cbn [all_digits] in Hs. apply andb_prop in Hs. exact (IH (proj2 Hs)).
Qed.

(** ** Unit and device class of a local data point *)

Lemma guess_dps (i : string) :
  all_digits i = true ->
  guess_unit_and_device_class ("dps_" ++ i) = (None, None).
Proof.
  intros Hi. unfold guess_unit_and_device_class, guess_lowered.
  assert (Hl : lower ("dps_" ++ i) = "dps_" ++ i).
  { cbn [append lower]. rewrite (lower_digits i Hi). reflexivity. }
  rewrite Hl.
  unfold is_temperature, is_current, is_voltage, is_power, is_energy,
    is_frequency, is_percentage, any_in, startswith.
  cbn [existsb append str_in endswith].
  rewrite !(str_in_digits _ i) by (try reflexivity; assumption).
  rewrite !(endswith_digits _ i) by (try reflexivity; assumption).
  simpl. rewrite ?(eqb_digits _ i) by (try reflexivity; assumption).
  reflexivity.
Qed.

(** X8. In the local mode no field is announced with a unit or a device
    class: when the data-point indices are strings of digits, every field of
    the snapshot is resolved to [(None, None)] and its discovery payload
    holds the five fixed keys only. *)
Theorem local_fields_have_no_unit (d dps flat : dict) (k : string) :
  dict_get d "dps" = Some (PDict dps) ->
  forallb all_digits (keys dps) = true ->
  flatten_local_status (PDict d) = Ok flat ->
  In k (keys flat) ->
  guess_unit_and_device_class k = (None, None)
  /\ replace_spaces k = k
  /\ forall base device_id dev,
       keys (discovery_payload base device_id dev (replace_spaces k))
       = ["name"; "uniq_id"; "stat_t"; "avty_t"; "dev"].
Proof.
  intros Hd Hdig Hflat Hk.
  rewrite (flatten_local_status_dps d dps Hd) in Hflat. injection Hflat as <-.
  destruct (collect_dps_keys _ _ _ Hk) as [[]|(i & Hi & ->)].
  rewrite forallb_forall in Hdig. specialize (Hdig i Hi).
  assert (Hsp : replace_spaces ("dps_" ++ i) = "dps_" ++ i).
  { apply replace_spaces_without_space. cbn [append str_in].
    rewrite (str_in_digits " " i) by (try reflexivity; assumption).
    reflexivity. }
  split; [exact (guess_dps i Hdig) | split; [exact Hsp|]].
  intros base device_id dev. rewrite Hsp. unfold discovery_payload.
  rewrite (guess_dps i Hdig). reflexivity.
Qed.

Lemma local_fields_have_no_unit_witness :
  guess_unit_and_device_class "dps_18" = (None, None)
  /\ replace_spaces "dps_18" = "dps_18"
  /\ forall base device_id dev,
       keys (discovery_payload base device_id dev (replace_spaces "dps_18"))
       = ["name"; "uniq_id"; "stat_t"; "avty_t"; "dev"].
Proof.
  apply (local_fields_have_no_unit
           [("dps", PDict [("18", PInt 55); ("101", PStr "idle")])]
           [("18", PInt 55); ("101", PStr "idle")]
           [("dps_18", PInt 55); ("dps_101", PStr "idle")] "dps_18").
  - reflexivity.
  - reflexivity.
  - reflexivity.
  - left. reflexivity.
Defined.

(** ** Discovery payloads and topics *)

(** X9. A discovery payload holds the five fixed keys, then "unit_of_meas"
    when a unit is inferred, then "dev_cla" when a class is inferred; the
    inference returns one of eight pairs, so that a device class is never
    announced without a unit; and the discovery topic is built on the
    unique id that the payload announces. *)
Theorem discovery_payload_keys (base device_id : string) (dev : pyval)
    (key : string) :
  keys (discovery_payload base device_id dev key)
  = (["name"; "uniq_id"; "stat_t"; "avty_t"; "dev"]
     ++ match fst (guess_unit_and_device_class key) with
        | Some _ => ["unit_of_meas"] | None => [] end
     ++ match snd (guess_unit_and_device_class key) with
        | Some _ => ["dev_cla"] | None => [] end)%list
  /\ In (guess_unit_and_device_class key)
       [ (Some "Â°C", Some "temperature"); (Some "A", None);
         (Some "V", Some "voltage"); (Some "W", Some "power");
         (Some "kWh", Some "energy"); (Some "Hz", None); (Some "%", None);
         (None, None) ]
  /\ (fst (guess_unit_and_device_class key) = None ->
      snd (guess_unit_and_device_class key) = None)
  /\ (exists uniq,
         dict_get (discovery_payload base device_id dev key) "uniq_id"
         = Some (PStr uniq)
         /\ discovery_topic device_id key
            = "homeassistant/sensor/" ++ uniq ++ "/config").
Proof.
  assert (Hrange :
    In (guess_unit_and_device_class key)
       [ (Some "Â°C", Some "temperature"); (Some "A", None);
         (Some "V", Some "voltage"); (Some "W", Some "power");
         (Some "kWh", Some "energy"); (Some "Hz", None); (Some "%", None);
         (None, None) ]).
  { unfold guess_unit_and_device_class, guess_lowered.
    repeat match goal with
           | |- context [if ?b then _ else _] => destruct b
           end; cbn [In]; tauto. }
  split; [|split; [exact Hrange | split]].
  - unfold discovery_payload. cbn [In] in Hrange.
    destruct Hrange as [H|[H|[H|[H|[H|[H|[H|[H|[]]]]]]]]];
      rewrite <- H; reflexivity.
  - cbn [In] in Hrange.
    destruct Hrange as [H|[H|[H|[H|[H|[H|[H|[H|[]]]]]]]]];
      rewrite <- H; cbn [fst snd]; congruence.
  - exists (device_id ++ "_" ++ key). split.
    + unfold discovery_payload.
      destruct (guess_unit_and_device_class key) as [unit dclass].
      rewrite !dict_get_set_if_truthy by discriminate. reflexivity.
    + unfold discovery_topic. rewrite !append_assoc. reflexivity.
Qed.

Lemma discovery_payload_keys_witness :
  snd (guess_unit_and_device_class "work_state") = None.
Proof.
  apply (proj1 (proj2 (proj2
           (discovery_payload_keys "gocean_ev/dev1" "dev1" PNone "work_state")))).
  reflexivity.
Defined.

Section DiscoveryTopics.

Variable py_repr : pyval -> string.
Variable json_dumps : pyval -> string.

(** X10. Two fields are announced on the same discovery topic exactly when
    their codes agree once spaces are replaced by underscores. So the codes
    without spaces never collide, while a code with a space and its
    underscored twin, two fields with two value topics, are announced by one
    and the same retained message. *)
Theorem discovery_topic_collisions (base device_id : string) (dev : pyval)
    (c1 c2 : string) :
  (topic (discovery_msg json_dumps base device_id dev c1)
   = topic (discovery_msg json_dumps base device_id dev c2)
   <-> replace_spaces c1 = replace_spaces c2)
  /\ (str_in " " c1 = false -> str_in " " c2 = false ->
      topic (discovery_msg json_dumps base device_id dev c1)
      = topic (discovery_msg json_dumps base device_id dev c2) ->
      c1 = c2)
  /\ (str_in " " c1 = true ->
      replace_spaces c1 <> c1
      /\ discovery_msg json_dumps base device_id dev (replace_spaces c1)
         = discovery_msg json_dumps base device_id dev c1
      /\ topic (value_msg py_repr json_dumps base (replace_spaces c1, PNone))
         <> topic (value_msg py_repr json_dumps base (c1, PNone))).
Proof.
  assert (Htopic :
    topic (discovery_msg json_dumps base device_id dev c1)
    = topic (discovery_msg json_dumps base device_id dev c2)
    <-> replace_spaces c1 = replace_spaces c2).
  { cbn [discovery_msg topic]. unfold discovery_topic. split.
    - intros H. apply append_inj_l, append_inj_l in H.
      apply (append_inj_l "_") in H. apply append_inj_r in H. exact H.
    - intros ->. reflexivity. }
  split; [exact Htopic | split].
  - intros H1 H2 H. apply Htopic in H.
    rewrite !replace_spaces_without_space in H by assumption. exact H.
  - intros Hsp. split; [exact (replace_spaces_with_space c1 Hsp) | split].
    + unfold discovery_msg. rewrite replace_spaces_idem. reflexivity.
    + cbn [value_msg topic]. unfold value_topic. intros H.
      apply append_inj_l in H. apply (append_inj_l "/") in H.
      exact (replace_spaces_with_space c1 Hsp H).
Qed.

End DiscoveryTopics.

Lemma discovery_topic_collisions_witness :
  "status_extra" <> "status extra"
  /\ discovery_msg json_any "gocean_ev/dev1" "dev1" PNone "status_extra"
     = discovery_msg json_any "gocean_ev/dev1" "dev1" PNone "status extra"
  /\ "gocean_ev/dev1/status_extra" <> "gocean_ev/dev1/status extra".
Proof.
  apply (proj2 (proj2 (discovery_topic_collisions repr_any json_any
                         "gocean_ev/dev1" "dev1" PNone "status extra"
                         "status extra"))).
  reflexivity.
Defined.

(** ** Snapshots *)

Lemma keys_dict_set_existing (d : dict) (k : string) (v v' : pyval) :
  dict_get d k = Some v -> keys (dict_set d k v') = keys d.
Proof.
  induction d as [|[k0 v0] d IH]; cbn [dict_get dict_set keys map fst];
    [discriminate|].
  destruct (k0 =? k); [reflexivity|].
  intros H. cbn [map fst]. fold (keys (dict_set d k v')). fold (keys d).
  rewrite (IH H). reflexivity.
Qed.

Lemma scale_keys_keys (ks : list string) (cur flat : dict) :
  scale_keys ks cur = Ok flat -> keys flat = keys cur.
Proof.
  revert cur. induction ks as [|k ks IH]; intros cur; cbn [scale_keys].
  - intros [= <-]. reflexivity.
  - destruct (dict_get cur k) as [v|] eqn:E; [|discriminate].
    destruct (apply_scaling k v) as [v'|]; [|discriminate]. cbn [bind].
    intros H. rewrite (IH _ H). exact (keys_dict_set_existing cur k v v' E).
Qed.

Lemma collect_dps_NoDup_keys (dps out : dict) :
  NoDup (keys out) -> NoDup (keys (collect_dps dps out)).
Proof.
  revert out. induction dps as [|[i v] dps IH]; intros out Hnd;
    cbn [collect_dps]; [assumption|].
  apply IH, NoDup_keys_dict_set, Hnd.
Qed.

Lemma toplevel_field_In (st : dict) (k : string) (v : pyval) :
  NoDup (keys st) -> In (k, v) st -> k <> "result" -> is_scalar v = true ->
  toplevel_field st k = Some v.
Proof.
  induction st as [|[k' v'] st IH]; cbn [keys map fst In toplevel_field];
    [intros _ []|].
  intros Hnd Hin Hk Hv. inversion Hnd as [|? ? Hni Hnd']; subst.
  destruct Hin as [[= -> ->]|Hin].
  - destruct (toplevel_field st k) as [w|] eqn:E.
    + exfalso. apply Hni. destruct (toplevel_field_scalar st k w E) as [Hw _].
      apply (in_map fst) in Hw. exact Hw.
    + rewrite String.eqb_refl, Hv.
      destruct (String.eqb_spec k "result"); [contradiction | reflexivity].
  - rewrite (IH Hnd' Hin Hk Hv). reflexivity.
Qed.

Lemma NoDup_map_injective {A B : Type} (f : A -> B) (l : list A) :
  (forall x y, f x = f y -> x = y) -> NoDup l -> NoDup (map f l).
Proof.
  intros Hinj. induction 1 as [|x l Hni Hnd IH]; cbn [map]; constructor.
  - intros Hin. apply in_map_iff in Hin. destruct Hin as (y & Hy & Hin).
    apply Hinj in Hy. subst y. contradiction.
  - exact IH.
Qed.

Section Snapshots.

Variable py_repr : pyval -> string.
Variable json_dumps : pyval -> string.

Lemma flatten_cloud_status_NoDup (status : pyval) (flat : dict) :
  flatten_cloud_status py_repr status = Ok flat -> NoDup (keys flat).
Proof.
  destruct status as [| | | | | |st]; try (intros [= <-]; constructor).
  unfold flatten_cloud_status.
  set (recs := match dict_get st "result" with
               | Some (PList items) => collect_records py_repr items []
               | _ => Ok []
               end).
  destruct recs as [out|e] eqn:Er; [|discriminate]. cbn [bind].
  assert (Hout : NoDup (keys out)).
  { subst recs. destruct (dict_get st "result") as [[| | | | |items|]|];
      try (injection Er as <-; constructor).
    eapply collect_records_NoDup; [exact Er | constructor]. }
  intros H. rewrite (scale_keys_keys _ _ _ H).
  apply collect_toplevel_NoDup, Hout.
Qed.

Lemma flatten_local_status_NoDup (data : pyval) (flat : dict) :
  flatten_local_status data = Ok flat -> NoDup (keys flat).
Proof.
  unfold flatten_local_status. intros H. rewrite (scale_keys_keys _ _ _ H).
  destruct data as [| | | | | |d]; try constructor.
  destruct (dict_get d "dps") as [[| | | | | |dps]|]; try constructor.
  apply collect_dps_NoDup_keys. constructor.
Qed.

(** X11. A snapshot never holds a field twice, whichever normalizer made
    it, and the value messages of a cycle go to pairwise distinct topics,
    one per field and in the order of the snapshot. *)
Theorem snapshot_topics_distinct (base : string) (flat : dict) :
  (exists status, flatten_cloud_status py_repr status = Ok flat)
  \/ (exists data, flatten_local_status data = Ok flat) ->
  NoDup (keys flat)
  /\ map topic (publish_values py_repr json_dumps base flat)
     = map (fun k => base ++ "/" ++ k) (keys flat)
  /\ NoDup (map topic (publish_values py_repr json_dumps base flat)).
Proof.
  intros H.
  assert (Hnd : NoDup (keys flat)).
  { destruct H as [[status H]|[data H]];
      [exact (flatten_cloud_status_NoDup status flat H)
      | exact (flatten_local_status_NoDup data flat H)]. }
  assert (Hmap : map topic (publish_values py_repr json_dumps base flat)
                 = map (fun k => base ++ "/" ++ k) (keys flat)).
  { unfold publish_values, keys. rewrite !map_map.
    apply map_ext. intros [k v]. reflexivity. }
  split; [exact Hnd | split; [exact Hmap|]].
  rewrite Hmap. apply NoDup_map_injective; [|exact Hnd].
  intros k1 k2 Hk. apply append_inj_l in Hk.
  apply (append_inj_l "/") in Hk. exact Hk.
Qed.

(** X12. A scalar top-level entry of a remote-API status, other than
    "result", always reaches the snapshot under its own name with its own
    value scaled, also when a record of the "result" list carries the same
    code: the top level overrides the records. *)
Theorem flatten_cloud_status_toplevel_wins (st flat : dict) (k : string)
    (v : pyval) :
  NoDup (keys st) ->
  In (k, v) st ->
  k <> "result" ->
  is_scalar v = true ->
  flatten_cloud_status py_repr (PDict st) = Ok flat ->
  exists v', apply_scaling k v = Ok v' /\ dict_get flat k = Some v'.
Proof.
  intros Hnd Hin Hk Hv Hflat.
  pose proof (flatten_cloud_status_get py_repr st flat k Hflat) as Hget.
  unfold raw_field in Hget.
  rewrite (toplevel_field_In st k v Hnd Hin Hk Hv) in Hget. exact Hget.
Qed.

End Snapshots.

Lemma local_cycle_attempts_prefix_witness :
  exists e, dev_only_33 0 3.4%float = Raise e.
Proof.
  destruct (local_cycle_attempts_prefix repr_any json_any [] "gocean_ev/dev1"
              "dev1" 3.4%float [3.3%float] (dev_only_33 0) None)
    as (_ & _ & H).
  apply (H 3.4%float). vm_compute. left. reflexivity.
Defined.

Lemma snapshot_topics_distinct_witness :
  NoDup (keys [("a_current", PFloat 5.5%float); ("status_extra", PStr "ok")])
  /\ map topic (publish_values repr_any json_any "gocean_ev/dev1"
                  [("a_current", PFloat 5.5%float); ("status_extra", PStr "ok")])
     = map (fun k => "gocean_ev/dev1" ++ "/" ++ k)
         (keys [("a_current", PFloat 5.5%float); ("status_extra", PStr "ok")])
  /\ NoDup (map topic
              (publish_values repr_any json_any "gocean_ev/dev1"
                 [("a_current", PFloat 5.5%float); ("status_extra", PStr "ok")])).
Proof.
  apply (snapshot_topics_distinct repr_any json_any "gocean_ev/dev1").
  left. exists status_spec_example. reflexivity.
Defined.

Lemma flatten_cloud_status_toplevel_wins_witness :
  exists v',
    apply_scaling "a_current" (PInt 70) = Ok v'
    /\ dict_get [("a_current", PFloat 7%float)] "a_current" = Some v'.
Proof.
  apply (flatten_cloud_status_toplevel_wins repr_any
           [ ("result", PList [PDict [("code", PStr "a_current"); ("value", PInt 55)]]);
             ("a_current", PInt 70) ]
           [("a_current", PFloat 7%float)] "a_current" (PInt 70)).
  - repeat constructor; cbn; intuition discriminate.
  - right. left. reflexivity.
  - discriminate.
  - reflexivity.
  - reflexivity.
Defined.

(** ** Start-up *)

Lemma truthy_py_or_None (v : pyval) : truthy (py_or v PNone) = truthy v.
Proof. unfold py_or. destruct (truthy v) eqn:E; [exact E | reflexivity]. Qed.

Lemma opt_set_subscript (opt : dict) (k : string) :
  opt_set opt k = true ->
  exists v, dict_subscript opt k = Ok v /\ truthy v = true.
Proof.
  unfold opt_set, dict_get_default, dict_subscript.
  destruct (dict_get opt k) as [v|]; [eauto | discriminate].
Qed.

Section StartupProperties.

Variable py_repr : pyval -> string.
Variable py_int_other : pyval -> result Z.
Variable broker : pyval -> Z -> result unit.

(** X13. When [mqtt_connect] returns, the base topic is the configured
    "mqtt_base_topic" if that is set and true, else "gocean_ev/<device id>";
    the last will ("offline") and the message published on connection
    ("online") are retained and go to the same topic, which is the
    availability topic of every discovery payload built on that base; and
    credentials are passed to the client only when user name and password
    are both set and true. *)
Theorem mqtt_connect_availability (opt : dict) (device_id : pyval)
    (cli : Client) (base : pyval) :
  mqtt_connect py_repr py_int_other broker opt device_id = Ok (cli, base) ->
  base = (if opt_set opt "mqtt_base_topic"
          then dict_get_default opt "mqtt_base_topic" PNone
          else PStr ("gocean_ev/" ++ py_str py_repr device_id))
  /\ cl_will cli = mkMsg (py_str py_repr base ++ "/availability") "offline" true
  /\ cl_log cli = [mkMsg (py_str py_repr base ++ "/availability") "online" true]
  /\ (forall id dev key,
         dict_get (discovery_payload (py_str py_repr base) id dev key) "avty_t"
         = Some (PStr (topic (cl_will cli))))
  /\ (cl_login cli <> None <->
      opt_set opt "mqtt_username" = true /\ opt_set opt "mqtt_password" = true).
Proof.
  unfold mqtt_connect.
  destruct (py_int py_int_other (dict_get_default opt "mqtt_port" (PInt 1883)))
    as [port|e]; [|discriminate]. cbn [bind].
  destruct (broker _ port) as [[]|e]; [|discriminate]. cbn [bind].
  intros [= <- <-]. cbn [cl_will cl_log cl_login topic].
  split; [reflexivity | split; [reflexivity | split; [reflexivity | split]]].
  - intros id dev key. unfold discovery_payload.
    destruct (guess_unit_and_device_class key) as [unit dclass].
    rewrite !dict_get_set_if_truthy by discriminate. reflexivity.
  - rewrite !truthy_py_or_None. unfold opt_set.
    destruct (truthy (dict_get_default opt "mqtt_username" PNone));
      destruct (truthy (dict_get_default opt "mqtt_password" PNone));
      cbn [andb]; split; try discriminate; try tauto;
      intros [? ?]; discriminate.
Qed.

End StartupProperties.

Lemma mqtt_connect_availability_witness :
  PStr "gocean_ev/dev1"
  = (if opt_set [("mqtt_username", PStr "ha"); ("mqtt_password", PStr "")]
          "mqtt_base_topic"
     then dict_get_default [("mqtt_username", PStr "ha"); ("mqtt_password", PStr "")]
            "mqtt_base_topic" PNone
     else PStr ("gocean_ev/" ++ py_str repr_any (PStr "dev1"))).
Proof.
  destruct (mqtt_connect_availability repr_any (fun _ => Raise TypeError)
              (fun _ _ => Ok tt)
              [("mqtt_username", PStr "ha"); ("mqtt_password", PStr "")]
              (PStr "dev1")
              (mkClient "gocean_ev_dev1" None
                 (mkMsg "gocean_ev/dev1/availability" "offline" true)
                 (PStr "core-mosquitto") 1883
                 [mkMsg "gocean_ev/dev1/availability" "online" true])
              (PStr "gocean_ev/dev1") eq_refl) as (H & _).
  exact H.
Defined.

(** X14. The dispatch of [__main__] starts a loop only with what the loop
    subscripts: the remote-API loop is started only in mode "cloud" (the
    default) with "tuya_client_id", "tuya_client_secret" and
    "tuya_device_id" present and true, the local loop only in mode "local"
    with "tuya_device_id", "local_ip" and "local_key" present and true, so
    that no subscript of the options raises [KeyError]; a local
    configuration that is incomplete is invalid and does not fall back to
    the remote API. *)
Theorem main_guard (options : dict) :
  (main options = RunCloud ->
   py_eq_str (dict_get_default options "mode" (PStr "cloud")) "cloud" = true
   /\ forall k, In k ["tuya_client_id"; "tuya_client_secret"; "tuya_device_id"] ->
                exists v, dict_subscript options k = Ok v /\ truthy v = true)
  /\ (main options = RunLocal ->
      py_eq_str (dict_get_default options "mode" (PStr "cloud")) "local" = true
      /\ forall k, In k ["tuya_device_id"; "local_ip"; "local_key"] ->
                   exists v, dict_subscript options k = Ok v /\ truthy v = true)
  /\ (py_eq_str (dict_get_default options "mode" (PStr "cloud")) "cloud" = false ->
      main options <> RunCloud)
  /\ (dict_get options "mode" = None -> main options <> RunLocal).
Proof.
  unfold main.
  set (mode := dict_get_default options "mode" (PStr "cloud")).
  split; [|split; [|split]].
  - destruct (py_eq_str mode "cloud") eqn:Em; cbn [andb].
    + destruct (opt_set options "tuya_client_id") eqn:E1; cbn [andb].
      * destruct (opt_set options "tuya_client_secret") eqn:E2; cbn [andb].
        -- destruct (opt_set options "tuya_device_id") eqn:E3; cbn [andb].
           ++ intros _. split; [reflexivity|].
              intros k [<-|[<-|[<-|[]]]]; apply opt_set_subscript; assumption.
           ++ destruct (_ && _); discriminate.
        -- destruct (_ && _); discriminate.
      * destruct (_ && _); discriminate.
    + destruct (_ && _); discriminate.
  - destruct (py_eq_str mode "cloud" && opt_set options "tuya_client_id"
              && opt_set options "tuya_client_secret"
              && opt_set options "tuya_device_id"); [discriminate|].
    destruct (py_eq_str mode "local") eqn:Em; cbn [andb]; [|discriminate].
    destruct (opt_set options "tuya_device_id") eqn:E1; cbn [andb];
      [|discriminate].
    destruct (opt_set options "local_ip") eqn:E2; cbn [andb]; [|discriminate].
    destruct (opt_set options "local_key") eqn:E3; [|discriminate].
    intros _. split; [reflexivity|].
    intros k [<-|[<-|[<-|[]]]]; apply opt_set_subscript; assumption.
  - intros ->. cbn [andb]. destruct (_ && _); discriminate.
  - intros Hm. subst mode. unfold dict_get_default. rewrite Hm.
    cbn [py_eq_str String.eqb Ascii.eqb Bool.eqb andb].
    destruct (_ && _ && _); discriminate.
Qed.

Lemma main_guard_witness :
  main [ ("mode", PStr "local"); ("tuya_device_id", PStr "dev1");
         ("local_ip", PStr "192.168.1.20") ] <> RunCloud.
Proof.
  apply (proj1 (proj2 (proj2
           (main_guard [ ("mode", PStr "local"); ("tuya_device_id", PStr "dev1");
                         ("local_ip", PStr "192.168.1.20") ])))).
  reflexivity.
Defined.
